(** * CloudEagle AI Integration Builder: the workflow engine of [streamlit_app.py]

    A shallow embedding of the decision logic of the Streamlit script:
    the generation orchestrator [generate_integration_code] with its
    fallback [generate_demo_code], the two keyword analysers
    [extract_insights] and [analyze_code_quality], and the five-stage
    page script [main] that reads and writes [st.session_state].

    Conventions.
    - A Python [str] is a [string]: the sequence of the bytes of its UTF-8
      encoding.  Every marker the script looks for is ASCII or a fixed
      UTF-8 glyph, so the substring tests agree with Python's on every
      text; [lower] changes the ASCII letters only, which no marker can
      tell from Python's [lower].  Indices and slices count characters,
      not bytes: [chars] splits a text into its characters.
    - [st.session_state] is the record [Session].  The surroundings of a
      run are the record [Env]: whether the image of the sidebar can be
      opened, what [st.secrets] holds, if it can be read at all, and the
      text-generation service.  The widgets are inputs of a run too.
    - A script run is a computation in the monad [App]: it threads the
      session, collects what is shown to the user and stops early on
      [st.rerun()] or on an exception.  Of what a page draws, the log
      keeps the messages of [st.warning], [st.error], [st.info],
      [st.success] and [st.caption], the insight lines, the score and the
      statuses of the quality report, and the buttons drawn disabled;
      styling, layout, progress bars and pauses are left out, and of the
      downloads only that the first one needs a text.
    - The value of every [st.button] call is an input of the run.  A
      click starts a run in which that one button reports a press
      ([one_button]); the pages are defined for every combination of
      values all the same, and a property that needs the restriction
      says so. *)

From Stdlib Require Import Bool Arith ZArith Lia List.
From Stdlib Require Import Strings.Ascii Strings.String DecimalString.
From Stdlib Require Import Floats.PrimFloat Floats.SpecFloat Floats.FloatOps.
From Stdlib Require Import Numbers.Cyclic.Int63.Uint63.
Import ListNotations.

Open Scope string_scope.

(** ** Text *)

Module Text.

(** The double quote and the line feed, which a literal cannot hold. *)
Definition dq : string := String (ascii_of_nat 34) EmptyString.
Definition nl : string := String (ascii_of_nat 10) EmptyString.

(** [unlines ls]: every line followed by a line feed. *)
Fixpoint unlines (ls : list string) : string :=
  match ls with
  | [] => EmptyString
  | l :: ls' => l ++ nl ++ unlines ls'
  end.

(** [join_lines ls]: the lines separated by line feeds. *)
Fixpoint join_lines (ls : list string) : string :=
  match ls with
  | [] => EmptyString
  | [l] => l
  | l :: ls' => l ++ nl ++ join_lines ls'
  end.

Definition lower_char (c : ascii) : ascii :=
  let n := nat_of_ascii c in
  if (65 <=? n)%nat && (n <=? 90)%nat then ascii_of_nat (n + 32) else c.

(** [s.lower()] *)
Fixpoint lower (s : string) : string :=
  match s with
  | EmptyString => EmptyString
  | String c s' => String (lower_char c) (lower s')
  end.

(** [sub in s] *)
Fixpoint contains (sub s : string) : bool :=
  if String.prefix sub s then true
  else match s with
       | EmptyString => false
       | String _ s' => contains sub s'
       end.

(** [s.count(sub)]: occurrences found from left to right, the search
    resuming after the end of each match. [skip] is the number of
    characters of the last match still to pass over. *)
Fixpoint count_from (sub : string) (skip : nat) (s : string) : nat :=
  match s with
  | EmptyString => 0
  | String _ s' =>
      match skip with
      | S k => count_from sub k s'
      | O =>
          if String.prefix sub s
          then S (count_from sub (String.length sub - 1) s')
          else count_from sub 0 s'
      end
  end.

Definition count (sub s : string) : nat :=
  match sub with
  | EmptyString => S (String.length s)
  | _ => count_from sub 0 s
  end.

(** A byte of the form [10xxxxxx] continues a character. *)
Definition continuation (c : ascii) : bool :=
  let n := nat_of_ascii c in
  (128 <=? n)%nat && (n <? 192)%nat.

(** The characters of a text: each one is a byte together with the
    continuation bytes that follow it. *)
Fixpoint chars (s : string) : list string :=
  match s with
  | EmptyString => []
  | String c s' =>
      match chars s' with
      | String d ch :: rest =>
          if continuation d then String c (String d ch) :: rest
          else String c EmptyString :: String d ch :: rest
      | rest => String c EmptyString :: rest
      end
  end.

(** The text made of the given characters. *)
Fixpoint unchars (l : list string) : string :=
  match l with
  | [] => EmptyString
  | ch :: l' => ch ++ unchars l'
  end.

(** [len(s)] *)
Definition char_length (s : string) : nat :=
  List.length (chars s).

(** [s[:n]] *)
Definition take_chars (n : nat) (s : string) : string :=
  unchars (firstn n (chars s)).

(** [str(n)] for a count. *)
Definition str_of_nat (n : nat) : string :=
  NilEmpty.string_of_uint (Nat.to_uint n).

(** Python truth value of a [str]. *)
Definition truthy (s : string) : bool :=
  match s with
  | EmptyString => false
  | _ => true
  end.

End Text.

Import Text.

(** ** Session state, inputs of a run, and the run monad *)

(** [st.session_state]: the six fields initialised at the top of the
    script, and [anthropic_key], which exists only once the sidebar field
    has been filled in. *)
Record Session : Type := mkSession {
  step : Z;
  generated_code : option string;
  api_doc_url : string;
  auth_method : string;
  sandbox_passed : bool;
  ai_insights : list string;
  anthropic_key : option string
}.

Definition set_step (v : Z) (s : Session) : Session :=
  mkSession v (generated_code s) (api_doc_url s) (auth_method s)
            (sandbox_passed s) (ai_insights s) (anthropic_key s).
Definition set_generated_code (v : option string) (s : Session) : Session :=
  mkSession (step s) v (api_doc_url s) (auth_method s)
            (sandbox_passed s) (ai_insights s) (anthropic_key s).
Definition set_api_doc_url (v : string) (s : Session) : Session :=
  mkSession (step s) (generated_code s) v (auth_method s)
            (sandbox_passed s) (ai_insights s) (anthropic_key s).
Definition set_auth_method (v : string) (s : Session) : Session :=
  mkSession (step s) (generated_code s) (api_doc_url s) v
            (sandbox_passed s) (ai_insights s) (anthropic_key s).
Definition set_sandbox_passed (v : bool) (s : Session) : Session :=
  mkSession (step s) (generated_code s) (api_doc_url s) (auth_method s)
            v (ai_insights s) (anthropic_key s).
Definition set_ai_insights (v : list string) (s : Session) : Session :=
  mkSession (step s) (generated_code s) (api_doc_url s) (auth_method s)
            (sandbox_passed s) v (anthropic_key s).
Definition set_anthropic_key (v : option string) (s : Session) : Session :=
  mkSession (step s) (generated_code s) (api_doc_url s) (auth_method s)
            (sandbox_passed s) (ai_insights s) v.

(** The session a new user starts with (source lines 77 to 88). *)
Definition initial : Session :=
  mkSession 1 None EmptyString "OAuth 2.0" false [] None.

(** What [client.messages.create(...)] followed by
    [message.content[0].text] gives: the generated text, or an exception
    (a subclass of [Exception]: network, authentication, malformed reply)
    with its message. *)
Inductive Reply : Type :=
  | Text (t : string)
  | Failure (e : string).

(** [st.secrets]: without a secrets file every access raises; with one,
    the entry [ANTHROPIC_API_KEY] is there or not. *)
Inductive Secrets : Type :=
  | NoSecretsFile
  | SecretsFile (api_key : option string).

(** The surroundings of a run: whether [st.image] can open the file its
    argument names (source line 640; it raises otherwise), [st.secrets],
    and the text-generation service as a function of the key handed to
    [anthropic.Anthropic] and of the prompt (model name,
    [max_tokens=4000] and [temperature=0.3] are constants of the call). *)
Record Env : Type := mkEnv {
  image_loads : bool;
  secrets : Secrets;
  messages_create : option string -> string -> Reply
}.

(** The buttons of the five pages. *)
Inductive Button : Type :=
  | BtnAuthOAuth | BtnAuthApiKey | BtnAuthBearer | BtnAuthAuto
  | BtnGenerate
  | BtnReview
  | BtnBack | BtnTestSandbox
  | BtnRunAllTests | BtnBackToCode | BtnDeployToProduction
  | BtnDeploy | BtnStartNew.

(** What the widgets return in one run: the two text inputs and, for each
    button, the value of its [st.button(...)] call. *)
Record Widgets : Type := mkWidgets {
  key_field : string;
  doc_url_field : string;
  pressed : Button -> bool
}.

(** What a run shows, as far as the workflow is concerned. *)
Inductive Shown : Type :=
  | StWarning (m : string)
  | StError (m : string)
  | StInfo (m : string)
  | StSuccess (m : string)
  | StCaption (m : string)
  | StMarkdown (m : string)
  | StButtonDisabled (b : Button).

(** How a computation ends early: [st.rerun()] or a raised exception. *)
Inductive Signal : Type :=
  | Rerun
  | Raised (e : string).

Definition App (A : Type) : Type :=
  Session -> (A + Signal) * Session * list Shown.

Definition ret {A : Type} (a : A) : App A :=
  fun s => (inl a, s, []).

Definition bind {A B : Type} (m : App A) (k : A -> App B) : App B :=
  fun s =>
    match m s with
    | (inl a, s1, out1) =>
        match k a s1 with
        | (r, s2, out2) => (r, s2, (out1 ++ out2)%list)
        end
    | (inr sig, s1, out1) => (inr sig, s1, out1)
    end.

Declare Scope app_scope.
Delimit Scope app_scope with app.
Notation "x <- m ;; k" := (bind m (fun x => k))
  (at level 61, m at next level, right associativity) : app_scope.
Notation "m ;; k" := (bind m (fun _ => k))
  (at level 61, right associativity) : app_scope.
Open Scope app_scope.

Definition get : App Session :=
  fun s => (inl s, s, []).
Definition modify (f : Session -> Session) : App unit :=
  fun s => (inl tt, f s, []).
Definition show (e : Shown) : App unit :=
  fun s => (inl tt, s, [e]).
Definition raise {A : Type} (e : string) : App A :=
  fun s => (inr (Raised e), s, []).
Definition rerun : App unit :=
  fun s => (inr Rerun, s, []).

(** [try: body  except Exception as e: handler e].  [st.rerun()] is not an
    [Exception] and passes through. *)
Definition try_except {A : Type} (body : App A) (handler : string -> App A)
  : App A :=
  fun s =>
    match body s with
    | (inr (Raised e), s1, out1) =>
        match handler e s1 with
        | (r, s2, out2) => (r, s2, (out1 ++ out2)%list)
        end
    | other => other
    end.

Definition when (b : bool) (m : App unit) : App unit :=
  if b then m else ret tt.

Fixpoint for_each {A : Type} (l : list A) (f : A -> App unit) : App unit :=
  match l with
  | [] => ret tt
  | a :: l' => f a ;; for_each l' f
  end.

(** Projections of the result of a computation. *)
Definition outcome {A : Type} (r : (A + Signal) * Session * list Shown)
  : A + Signal := fst (fst r).
Definition state_of {A : Type} (r : (A + Signal) * Session * list Shown)
  : Session := snd (fst r).
Definition shown_of {A : Type} (r : (A + Signal) * Session * list Shown)
  : list Shown := snd r.

(** ** Insight Extractor *)

Definition insight_oauth : string :=
  "• Detected OAuth 2.0 with refresh token flow".
Definition insight_cursor : string :=
  "• Pagination uses cursor-based method".
Definition insight_offset : string :=
  "• Pagination uses offset-based method".
Definition insight_rate_limit : string :=
  "• Rate limiting implemented with backoff".
Definition insight_retry : string :=
  "• Automatic retry logic included".
Definition insight_methods (endpoint_count : nat) : string :=
  "• Found " ++ str_of_nat endpoint_count ++ " data retrieval methods".

(** The six tests of [extract_insights], in the order of the source. *)
Definition has_oauth (code : string) : bool :=
  contains "OAuth" code || contains "oauth" code.
Definition has_cursor (code : string) : bool :=
  contains "cursor" (lower code).
Definition has_offset (code : string) : bool :=
  contains "offset" (lower code).
Definition has_rate_limit (code : string) : bool :=
  contains "rate_limit" (lower code) || contains "RateLimit" code.
Definition has_retry (code : string) : bool :=
  contains "retry" (lower code).
Definition endpoint_count (code : string) : nat :=
  count "def get_" code + count "def list_" code.

(** [insights.append(line)] under [if b]. *)
Definition append_if (b : bool) (line : string) (insights : list string)
  : list string :=
  if b then (insights ++ [line])%list else insights.

Definition extract_insights (code api_url : string) : list string :=
  let insights := [] in
  let insights := append_if (has_oauth code) insight_oauth insights in
  let insights := append_if (has_cursor code) insight_cursor insights in
  let insights := append_if (has_offset code) insight_offset insights in
  let insights :=
    append_if (has_rate_limit code) insight_rate_limit insights in
  let insights := append_if (has_retry code) insight_retry insights in
  let n := endpoint_count code in
  let insights := append_if (0 <? n)%nat (insight_methods n) insights in
  insights.

(** ** Fallback Synthesizer *)

(** The lines of the sample returned by [generate_demo_code] (source lines 215 to 607). *)
Definition demo_code_lines : list string :=
  [ dq ++ dq ++ dq
  ; "Calendly API Integration - Production Ready"
  ; "Generated by CloudEagle AI Integration Builder"
  ; dq ++ dq ++ dq
  ; EmptyString
  ; "import requests"
  ; "from typing import Dict, List, Optional"
  ; "import os"
  ; "import time"
  ; "import logging"
  ; "from datetime import datetime, timedelta"
  ; EmptyString
  ; "# Configure logging"
  ; "logging.basicConfig("
  ; "    level=logging.INFO,"
  ; "    format='%(asctime)s - %(name)s - %(levelname)s - %(message)s'"
  ; ")"
  ; "logger = logging.getLogger(__name__)"
  ; EmptyString
  ; EmptyString
  ; "class CalendlyAuth:"
  ; "    " ++ dq ++ dq ++ dq ++ "Handles OAuth 2.0 authentication for Calendly API" ++ dq ++ dq ++ dq
  ; "    "
  ; "    def __init__(self, client_id: str, client_secret: str):"
  ; "        " ++ dq ++ dq ++ dq
  ; "        Initialize Calendly authentication"
  ; "        "
  ; "        Args:"
  ; "            client_id: OAuth client ID from Calendly"
  ; "            client_secret: OAuth client secret from Calendly"
  ; "        " ++ dq ++ dq ++ dq
  ; "        self.client_id = client_id"
  ; "        self.client_secret = client_secret"
  ; "        self.access_token: Optional[str] = None"
  ; "        self.refresh_token: Optional[str] = None"
  ; "        self.token_expires_at: Optional[datetime] = None"
  ; "        self.base_auth_url = " ++ dq ++ "https://auth.calendly.com/oauth" ++ dq
  ; "        "
  ; "        logger.info(" ++ dq ++ "Calendly authentication initialized" ++ dq ++ ")"
  ; "    "
  ; "    def get_authorization_url(self, redirect_uri: str) -> str:"
  ; "        " ++ dq ++ dq ++ dq
  ; "        Generate OAuth authorization URL"
  ; "        "
  ; "        Args:"
  ; "            redirect_uri: Callback URL after authorization"
  ; "            "
  ; "        Returns:"
  ; "            Authorization URL for user to visit"
  ; "        " ++ dq ++ dq ++ dq
  ; "        return ("
  ; "            f" ++ dq ++ "{self.base_auth_url}/authorize?" ++ dq
  ; "            f" ++ dq ++ "client_id={self.client_id}&" ++ dq
  ; "            f" ++ dq ++ "redirect_uri={redirect_uri}&" ++ dq
  ; "            f" ++ dq ++ "response_type=code" ++ dq
  ; "        )"
  ; "    "
  ; "    def exchange_code_for_token(self, code: str, redirect_uri: str) -> Dict:"
  ; "        " ++ dq ++ dq ++ dq
  ; "        Exchange authorization code for access token"
  ; "        "
  ; "        Args:"
  ; "            code: Authorization code from OAuth callback"
  ; "            redirect_uri: Same redirect URI used in authorization"
  ; "            "
  ; "        Returns:"
  ; "            Token response with access_token and refresh_token"
  ; "        " ++ dq ++ dq ++ dq
  ; "        try:"
  ; "            response = requests.post("
  ; "                f" ++ dq ++ "{self.base_auth_url}/token" ++ dq ++ ","
  ; "                data={"
  ; "                    " ++ dq ++ "grant_type" ++ dq ++ ": " ++ dq ++ "authorization_code" ++ dq ++ ","
  ; "                    " ++ dq ++ "code" ++ dq ++ ": code,"
  ; "                    " ++ dq ++ "redirect_uri" ++ dq ++ ": redirect_uri,"
  ; "                    " ++ dq ++ "client_id" ++ dq ++ ": self.client_id,"
  ; "                    " ++ dq ++ "client_secret" ++ dq ++ ": self.client_secret"
  ; "                },"
  ; "                timeout=30"
  ; "            )"
  ; "            response.raise_for_status()"
  ; "            "
  ; "            token_data = response.json()"
  ; "            self.access_token = token_data.get(" ++ dq ++ "access_token" ++ dq ++ ")"
  ; "            self.refresh_token = token_data.get(" ++ dq ++ "refresh_token" ++ dq ++ ")"
  ; "            "
  ; "            # Calculate expiration (Calendly tokens expire in 2 hours)"
  ; "            expires_in = token_data.get(" ++ dq ++ "expires_in" ++ dq ++ ", 7200)"
  ; "            self.token_expires_at = datetime.now() + timedelta(seconds=expires_in)"
  ; "            "
  ; "            logger.info(" ++ dq ++ "Successfully obtained access token" ++ dq ++ ")"
  ; "            return token_data"
  ; "            "
  ; "        except requests.exceptions.RequestException as e:"
  ; "            logger.error(f" ++ dq ++ "Token exchange failed: {str(e)}" ++ dq ++ ")"
  ; "            raise"
  ; "    "
  ; "    def refresh_access_token(self) -> Dict:"
  ; "        " ++ dq ++ dq ++ dq
  ; "        Refresh expired access token using refresh token"
  ; "        "
  ; "        Returns:"
  ; "            New token response"
  ; "        " ++ dq ++ dq ++ dq
  ; "        if not self.refresh_token:"
  ; "            raise ValueError(" ++ dq ++ "No refresh token available" ++ dq ++ ")"
  ; "        "
  ; "        try:"
  ; "            response = requests.post("
  ; "                f" ++ dq ++ "{self.base_auth_url}/token" ++ dq ++ ","
  ; "                data={"
  ; "                    " ++ dq ++ "grant_type" ++ dq ++ ": " ++ dq ++ "refresh_token" ++ dq ++ ","
  ; "                    " ++ dq ++ "refresh_token" ++ dq ++ ": self.refresh_token,"
  ; "                    " ++ dq ++ "client_id" ++ dq ++ ": self.client_id,"
  ; "                    " ++ dq ++ "client_secret" ++ dq ++ ": self.client_secret"
  ; "                },"
  ; "                timeout=30"
  ; "            )"
  ; "            response.raise_for_status()"
  ; "            "
  ; "            token_data = response.json()"
  ; "            self.access_token = token_data.get(" ++ dq ++ "access_token" ++ dq ++ ")"
  ; "            "
  ; "            # Update expiration"
  ; "            expires_in = token_data.get(" ++ dq ++ "expires_in" ++ dq ++ ", 7200)"
  ; "            self.token_expires_at = datetime.now() + timedelta(seconds=expires_in)"
  ; "            "
  ; "            logger.info(" ++ dq ++ "Access token refreshed successfully" ++ dq ++ ")"
  ; "            return token_data"
  ; "            "
  ; "        except requests.exceptions.RequestException as e:"
  ; "            logger.error(f" ++ dq ++ "Token refresh failed: {str(e)}" ++ dq ++ ")"
  ; "            raise"
  ; "    "
  ; "    def get_valid_token(self) -> str:"
  ; "        " ++ dq ++ dq ++ dq
  ; "        Get valid access token, refreshing if necessary"
  ; "        "
  ; "        Returns:"
  ; "            Valid access token"
  ; "        " ++ dq ++ dq ++ dq
  ; "        # Check if token needs refresh (refresh 5 minutes before expiry)"
  ; "        if self.token_expires_at:"
  ; "            time_until_expiry = (self.token_expires_at - datetime.now()).total_seconds()"
  ; "            if time_until_expiry < 300:  # Less than 5 minutes"
  ; "                logger.info(" ++ dq ++ "Token expiring soon, refreshing..." ++ dq ++ ")"
  ; "                self.refresh_access_token()"
  ; "        "
  ; "        return self.access_token"
  ; EmptyString
  ; EmptyString
  ; "class CalendlyClient:"
  ; "    " ++ dq ++ dq ++ dq ++ "Main Calendly API client" ++ dq ++ dq ++ dq
  ; "    "
  ; "    def __init__(self, auth: CalendlyAuth):"
  ; "        " ++ dq ++ dq ++ dq
  ; "        Initialize Calendly client"
  ; "        "
  ; "        Args:"
  ; "            auth: CalendlyAuth instance with valid credentials"
  ; "        " ++ dq ++ dq ++ dq
  ; "        self.auth = auth"
  ; "        self.base_url = " ++ dq ++ "https://api.calendly.com" ++ dq
  ; "        self.session = requests.Session()"
  ; "        self.session.headers.update({"
  ; "            " ++ dq ++ "Content-Type" ++ dq ++ ": " ++ dq ++ "application/json" ++ dq
  ; "        })"
  ; "        "
  ; "        logger.info(" ++ dq ++ "Calendly client initialized" ++ dq ++ ")"
  ; "    "
  ; "    def _make_request("
  ; "        self, "
  ; "        method: str, "
  ; "        endpoint: str, "
  ; "        **kwargs"
  ; "    ) -> requests.Response:"
  ; "        " ++ dq ++ dq ++ dq
  ; "        Make authenticated API request with retry logic"
  ; "        "
  ; "        Args:"
  ; "            method: HTTP method (GET, POST, etc.)"
  ; "            endpoint: API endpoint path"
  ; "            **kwargs: Additional request parameters"
  ; "            "
  ; "        Returns:"
  ; "            Response object"
  ; "        " ++ dq ++ dq ++ dq
  ; "        url = f" ++ dq ++ "{self.base_url}/{endpoint.lstrip('/')}" ++ dq
  ; "        "
  ; "        # Add authorization header"
  ; "        token = self.auth.get_valid_token()"
  ; "        headers = kwargs.pop('headers', {})"
  ; "        headers['Authorization'] = f'Bearer {token}'"
  ; "        "
  ; "        # Retry logic with exponential backoff"
  ; "        max_retries = 3"
  ; "        for attempt in range(max_retries):"
  ; "            try:"
  ; "                response = self.session.request("
  ; "                    method=method,"
  ; "                    url=url,"
  ; "                    headers=headers,"
  ; "                    timeout=30,"
  ; "                    **kwargs"
  ; "                )"
  ; "                "
  ; "                # Handle rate limiting"
  ; "                if response.status_code == 429:"
  ; "                    retry_after = int(response.headers.get('Retry-After', 60))"
  ; "                    logger.warning(f" ++ dq ++ "Rate limited. Waiting {retry_after} seconds..." ++ dq ++ ")"
  ; "                    time.sleep(retry_after)"
  ; "                    continue"
  ; "                "
  ; "                response.raise_for_status()"
  ; "                return response"
  ; "                "
  ; "            except requests.exceptions.RequestException as e:"
  ; "                if attempt < max_retries - 1:"
  ; "                    wait_time = 2 ** attempt  # Exponential backoff"
  ; "                    logger.warning(f" ++ dq ++ "Request failed. Retrying in {wait_time}s..." ++ dq ++ ")"
  ; "                    time.sleep(wait_time)"
  ; "                else:"
  ; "                    logger.error(f" ++ dq ++ "Request failed after {max_retries} attempts: {str(e)}" ++ dq ++ ")"
  ; "                    raise"
  ; "    "
  ; "    def get_current_user(self) -> Dict:"
  ; "        " ++ dq ++ dq ++ dq
  ; "        Get current authenticated user"
  ; "        "
  ; "        Returns:"
  ; "            User object"
  ; "        " ++ dq ++ dq ++ dq
  ; "        response = self._make_request('GET', '/users/me')"
  ; "        return response.json()"
  ; "    "
  ; "    def list_users(self, organization_uri: str, max_results: int = 100) -> List[Dict]:"
  ; "        " ++ dq ++ dq ++ dq
  ; "        List all users in organization with automatic pagination"
  ; "        "
  ; "        Args:"
  ; "            organization_uri: Organization URI"
  ; "            max_results: Maximum number of results to return"
  ; "            "
  ; "        Returns:"
  ; "            List of user objects"
  ; "        " ++ dq ++ dq ++ dq
  ; "        all_users = []"
  ; "        page_token = None"
  ; "        "
  ; "        while len(all_users) < max_results:"
  ; "            params = {"
  ; "                'organization': organization_uri,"
  ; "                'count': min(100, max_results - len(all_users))"
  ; "            }"
  ; "            "
  ; "            if page_token:"
  ; "                params['page_token'] = page_token"
  ; "            "
  ; "            response = self._make_request('GET', '/users', params=params)"
  ; "            data = response.json()"
  ; "            "
  ; "            users = data.get('collection', [])"
  ; "            all_users.extend(users)"
  ; "            "
  ; "            # Check for next page"
  ; "            pagination = data.get('pagination', {})"
  ; "            page_token = pagination.get('next_page_token')"
  ; "            "
  ; "            if not page_token or len(all_users) >= max_results:"
  ; "                break"
  ; "            "
  ; "            logger.info(f" ++ dq ++ "Fetched {len(all_users)} users so far..." ++ dq ++ ")"
  ; "        "
  ; "        logger.info(f" ++ dq ++ "Total users retrieved: {len(all_users)}" ++ dq ++ ")"
  ; "        return all_users[:max_results]"
  ; "    "
  ; "    def get_event_types(self, user_uri: str) -> List[Dict]:"
  ; "        " ++ dq ++ dq ++ dq
  ; "        Get event types for a user"
  ; "        "
  ; "        Args:"
  ; "            user_uri: User URI"
  ; "            "
  ; "        Returns:"
  ; "            List of event type objects"
  ; "        " ++ dq ++ dq ++ dq
  ; "        all_event_types = []"
  ; "        page_token = None"
  ; "        "
  ; "        while True:"
  ; "            params = {'user': user_uri, 'count': 100}"
  ; "            "
  ; "            if page_token:"
  ; "                params['page_token'] = page_token"
  ; "            "
  ; "            response = self._make_request('GET', '/event_types', params=params)"
  ; "            data = response.json()"
  ; "            "
  ; "            event_types = data.get('collection', [])"
  ; "            all_event_types.extend(event_types)"
  ; "            "
  ; "            # Check for next page"
  ; "            pagination = data.get('pagination', {})"
  ; "            page_token = pagination.get('next_page_token')"
  ; "            "
  ; "            if not page_token:"
  ; "                break"
  ; "        "
  ; "        logger.info(f" ++ dq ++ "Retrieved {len(all_event_types)} event types" ++ dq ++ ")"
  ; "        return all_event_types"
  ; "    "
  ; "    def get_scheduled_events("
  ; "        self, "
  ; "        organization_uri: str,"
  ; "        min_start_time: Optional[str] = None,"
  ; "        max_start_time: Optional[str] = None"
  ; "    ) -> List[Dict]:"
  ; "        " ++ dq ++ dq ++ dq
  ; "        Get scheduled events with optional date filtering"
  ; "        "
  ; "        Args:"
  ; "            organization_uri: Organization URI"
  ; "            min_start_time: Filter events after this time (ISO 8601)"
  ; "            max_start_time: Filter events before this time (ISO 8601)"
  ; "            "
  ; "        Returns:"
  ; "            List of event objects"
  ; "        " ++ dq ++ dq ++ dq
  ; "        all_events = []"
  ; "        page_token = None"
  ; "        "
  ; "        while True:"
  ; "            params = {"
  ; "                'organization': organization_uri,"
  ; "                'count': 100"
  ; "            }"
  ; "            "
  ; "            if min_start_time:"
  ; "                params['min_start_time'] = min_start_time"
  ; "            if max_start_time:"
  ; "                params['max_start_time'] = max_start_time"
  ; "            if page_token:"
  ; "                params['page_token'] = page_token"
  ; "            "
  ; "            response = self._make_request('GET', '/scheduled_events', params=params)"
  ; "            data = response.json()"
  ; "            "
  ; "            events = data.get('collection', [])"
  ; "            all_events.extend(events)"
  ; "            "
  ; "            # Check for next page"
  ; "            pagination = data.get('pagination', {})"
  ; "            page_token = pagination.get('next_page_token')"
  ; "            "
  ; "            if not page_token:"
  ; "                break"
  ; "        "
  ; "        logger.info(f" ++ dq ++ "Retrieved {len(all_events)} scheduled events" ++ dq ++ ")"
  ; "        return all_events"
  ; EmptyString
  ; EmptyString
  ; "# Example usage"
  ; "if __name__ == " ++ dq ++ "__main__" ++ dq ++ ":"
  ; "    # Initialize from environment variables (never hardcode!)"
  ; "    client_id = os.environ.get(" ++ dq ++ "CALENDLY_CLIENT_ID" ++ dq ++ ")"
  ; "    client_secret = os.environ.get(" ++ dq ++ "CALENDLY_CLIENT_SECRET" ++ dq ++ ")"
  ; "    "
  ; "    if not client_id or not client_secret:"
  ; "        raise ValueError(" ++ dq ++ "Missing CALENDLY_CLIENT_ID or CALENDLY_CLIENT_SECRET" ++ dq ++ ")"
  ; "    "
  ; "    # Set up authentication"
  ; "    auth = CalendlyAuth(client_id=client_id, client_secret=client_secret)"
  ; "    "
  ; "    # For OAuth flow, you would:"
  ; "    # 1. Redirect user to: auth.get_authorization_url(redirect_uri)"
  ; "    # 2. Handle callback and exchange code"
  ; "    # auth.exchange_code_for_token(code, redirect_uri)"
  ; "    "
  ; "    # Create client"
  ; "    client = CalendlyClient(auth=auth)"
  ; "    "
  ; "    # Get current user"
  ; "    user = client.get_current_user()"
  ; "    print(f" ++ dq ++ "Authenticated as: {user['resource']['name']}" ++ dq ++ ")"
  ; "    "
  ; "    # List users in organization"
  ; "    org_uri = user['resource']['current_organization']"
  ; "    users = client.list_users(organization_uri=org_uri, max_results=50)"
  ; "    print(f" ++ dq ++ "Found {len(users)} users" ++ dq ++ ")"
  ; "    "
  ; "    # Get scheduled events"
  ; "    events = client.get_scheduled_events(organization_uri=org_uri)"
  ; "    print(f" ++ dq ++ "Found {len(events)} scheduled events" ++ dq ++ ")"
  ].

Definition demo_code : string := unlines demo_code_lines.

Definition demo_insights : list string :=
  [ "• Detected OAuth 2.0 with refresh token flow"
  ; "• Found 12 relevant endpoints for user data"
  ; "• Pagination uses cursor-based method"
  ; "• Rate limit: 500 requests/minute"
  ].

Definition generate_demo_code (api_doc_url auth_method : string)
  : App string :=
  modify (set_ai_insights demo_insights) ;;
  ret demo_code.

(** ** Generation Orchestrator *)

(** The f-string of source lines 107 to 157. *)
Definition build_prompt (api_doc_url auth_method language : string)
  : string :=
  join_lines
    [ "You are an expert integration engineer building production-grade API integration code."
    ; EmptyString
    ; "API Documentation URL: " ++ api_doc_url
    ; "Authentication Method: " ++ auth_method
    ; "Target Language: " ++ language
    ; EmptyString
    ; "Based on the API documentation, generate a complete, production-ready integration that includes:"
    ; EmptyString
    ; "1. **Authentication Setup**"
    ; "   - Handle " ++ auth_method
    ; "   - Token refresh logic (if applicable)"
    ; "   - Secure credential management using environment variables"
    ; "   - Error handling for auth failures"
    ; EmptyString
    ; "2. **API Client Class**"
    ; "   - Base URL configuration"
    ; "   - Request/response handling"
    ; "   - Rate limit awareness from API docs"
    ; "   - Version handling (if required by API)"
    ; EmptyString
    ; "3. **Data Retrieval Methods**"
    ; "   - Get users endpoint"
    ; "   - Get usage/analytics data"
    ; "   - Handle nested resources"
    ; "   - Proper typing with type hints"
    ; EmptyString
    ; "4. **Pagination Implementation**"
    ; "   - Auto-detect pagination type (cursor, offset, link-header)"
    ; "   - Iterator pattern for seamless pagination"
    ; "   - Handle empty responses"
    ; EmptyString
    ; "5. **Error Handling**"
    ; "   - Retry logic with exponential backoff"
    ; "   - Rate limit handling (429)"
    ; "   - Network errors"
    ; "   - API-specific error codes"
    ; EmptyString
    ; "6. **Logging**"
    ; "   - Structured logging with correlation IDs"
    ; "   - Log levels (INFO, WARNING, ERROR)"
    ; "   - API call tracking"
    ; EmptyString
    ; "CRITICAL REQUIREMENTS:"
    ; "- NO hardcoded credentials"
    ; "- Follow PEP 8 style guide"
    ; "- Include comprehensive docstrings"
    ; "- Add type hints"
    ; "- Use best practices from the API documentation"
    ; "- Implement defensive programming"
    ; EmptyString
    ; "Generate ONLY the Python code with clear comments. Make it production-ready."
    ].

(** [not st.session_state.get('anthropic_key')] *)
Definition no_session_key (s : Session) : bool :=
  match anthropic_key s with
  | None => true
  | Some k => negb (truthy k)
  end.

(** The key that [st.secrets] holds, if any. *)
Definition secret_key (env : Env) : option string :=
  match secrets env with
  | NoSecretsFile => None
  | SecretsFile k => k
  end.

(** No credential is configured: neither [st.secrets] nor the session
    holds a key. *)
Definition no_credential (env : Env) (s : Session) : bool :=
  match secret_key env with
  | None => no_session_key s
  | Some _ => false
  end.

(** The key handed to the service: the one of [st.secrets] first. *)
Definition api_key_of (env : Env) (s : Session) : option string :=
  match secret_key env with
  | Some k => Some k
  | None => anthropic_key s
  end.

(** What the access to [st.secrets] raises without a secrets file. *)
Definition secrets_error : string := "StreamlitSecretNotFoundError".

(** ['ANTHROPIC_API_KEY' in st.secrets] *)
Definition in_secrets (env : Env) : App bool :=
  match secrets env with
  | NoSecretsFile => raise secrets_error
  | SecretsFile None => ret false
  | SecretsFile (Some _) => ret true
  end.

(** [st.secrets.get('ANTHROPIC_API_KEY', default)] *)
Definition secrets_get (env : Env) (default : option string)
  : App (option string) :=
  match secrets env with
  | NoSecretsFile => raise secrets_error
  | SecretsFile None => ret default
  | SecretsFile (Some k) => ret (Some k)
  end.

Definition msg_no_key : string :=
  "⚠️ Anthropic API key not configured. Using demo mode with pre-generated code.".

(** The test of source line 97 stands before the [try]: what it raises is
    not caught. *)
Definition generate_integration_code (env : Env)
    (api_doc_url auth_method language : string) : App string :=
  has_secret <- in_secrets env ;;
  s <- get ;;
  if negb has_secret && no_session_key s then
    show (StWarning msg_no_key) ;;
    generate_demo_code api_doc_url auth_method
  else
    try_except
      (s <- get ;;
       api_key <- secrets_get env (anthropic_key s) ;;
       let prompt := build_prompt api_doc_url auth_method language in
       match messages_create env api_key prompt with
       | Failure e => raise e
       | Text generated_code =>
           let insights := extract_insights generated_code api_doc_url in
           modify (set_ai_insights insights) ;;
           ret generated_code
       end)
      (fun e =>
         show (StError ("❌ Error generating code: " ++ e)) ;;
         show (StInfo "Falling back to demo mode...") ;;
         generate_demo_code api_doc_url auth_method).

(** ** Quality Analyzer *)

Definition status (b : bool) : string :=
  if b then "✓ Passed" else "⚠️ Warning".

(** The six conditions of [analyze_code_quality]. *)
Definition check_security (code : string) : bool :=
  contains "os.environ" code && negb (contains "hardcode" (lower code)).
Definition check_error_handling (code : string) : bool :=
  contains "try:" code && contains "except" code.
Definition check_pagination (code : string) : bool :=
  contains "pagination" (lower code) || contains "cursor" (lower code).
Definition check_rate_limiting (code : string) : bool :=
  contains "rate_limit" (lower code) || contains "429" code.
Definition check_logging (code : string) : bool :=
  contains "logging" (lower code) || contains "logger" code.
Definition check_best_practices (code : string) : bool :=
  contains "type hints" code || contains ":" (take_chars 1000 code).

(** The dictionary [metrics], in insertion order. *)
Definition quality_metrics (code : string) : list (string * string) :=
  [ ("security", status (check_security code))
  ; ("error_handling", status (check_error_handling code))
  ; ("pagination", status (check_pagination code))
  ; ("rate_limiting", status (check_rate_limiting code))
  ; ("logging", status (check_logging code))
  ; ("best_practices", status (check_best_practices code))
  ].

(** [sum(1 for v in metrics.values() if "✓" in v)] *)
Definition passed_count (metrics : list (string * string)) : nat :=
  List.length (filter (fun kv => contains "✓" (snd kv)) metrics).

(** A small Python [int] as a [float]. *)
Definition float_of_nat (n : nat) : float :=
  PrimFloat.of_uint63 (Uint63.of_Z (Z.of_nat n)).

(** [(passed / len(metrics)) * 10] in binary64 arithmetic. *)
Definition score_of (passed total : nat) : float :=
  PrimFloat.mul (PrimFloat.div (float_of_nat passed) (float_of_nat total))
                (float_of_nat 10).

Definition analyze_code_quality (code : string)
  : list (string * string) * float :=
  let metrics := quality_metrics code in
  let passed := passed_count metrics in
  let score := score_of passed (List.length metrics) in
  (metrics, score).

(** *** The score as it is displayed: [f'{score:.1f}'] *)

Definition str_of_Z (z : Z) : string :=
  NilEmpty.string_of_uint (N.to_uint (Z.to_N z)).

(** [n / d] rounded to the nearest integer, ties to the even one
    ([0 <= n], [0 < d]). *)
Definition round_half_even (n d : Z) : Z :=
  let q := (n / d)%Z in
  let r := (n mod d)%Z in
  match (2 * r ?= d)%Z with
  | Lt => q
  | Gt => (q + 1)%Z
  | Eq => if Z.even q then q else (q + 1)%Z
  end.

(** A number of tenths printed with one decimal. *)
Definition show_tenths (t : Z) : string :=
  str_of_Z (t / 10) ++ "." ++ str_of_Z (t mod 10).

(** The magnitude [m * 2^e] in tenths, correctly rounded. *)
Definition tenths_of (m : positive) (e : Z) : Z :=
  match e with
  | Zneg p => round_half_even (Zpos m * 10) (2 ^ Zpos p)
  | _ => (Zpos m * 2 ^ e * 10)%Z
  end.

Definition format_1f (x : float) : string :=
  match Prim2SF x with
  | S754_zero sign => (if sign then "-0.0" else "0.0")
  | S754_infinity sign => (if sign then "-inf" else "inf")
  | S754_nan => "nan"
  | S754_finite sign m e =>
      (if sign then "-" else EmptyString) ++ show_tenths (tenths_of m e)
  end.

(** *** The score as the specification words it: [passed / 6 * 10] as an
    exact fraction, and that fraction rounded to one decimal. *)
Definition exact_tenths (passed : nat) : Z :=
  round_half_even (Z.of_nat passed * 10 * 10) 6.

(** [x] lies within [2^-50] of the fraction [num / den] ([0 < den]); for a
    finite [x = m * 2^e] with [e < 0] this is
    [|m * den - num * 2^-e| * 2^50 <= den * 2^-e]. *)
Definition close_to (x : float) (num den : Z) : bool :=
  match Prim2SF x with
  | S754_zero _ => (num =? 0)%Z
  | S754_finite false m (Zneg p) =>
      (Z.abs (Zpos m * den - num * 2 ^ Zpos p) * 2 ^ 50 <=? den * 2 ^ Zpos p)%Z
  | S754_finite false m e =>
      (Z.abs (Zpos m * 2 ^ e * den - num) * 2 ^ 50 <=? den)%Z
  | _ => false
  end.

(** ** Workflow State Machine: the page script [main] *)

(** What [st.image] raises when it cannot open what its argument names. *)
Definition image_error : string := "MediaFileStorageError".

(** The sidebar: [st.image] is handed the text of a heading as the name of
    its image and raises unless the surroundings hold such an image; then
    a key typed into the field is stored in the session. *)
Definition sidebar (env : Env) (w : Widgets) : App unit :=
  (if image_loads env then ret tt else raise image_error) ;;
  let api_key := key_field w in
  when (truthy api_key)
    (modify (set_anthropic_key (Some api_key)) ;;
     show (StSuccess "API key configured!")).

(** Step 1: the URL field is stored on every run; the forward button
    moves to step 2. *)
Definition configure_page (w : Widgets) : App unit :=
  let api_doc_url := doc_url_field w in
  modify (set_api_doc_url api_doc_url) ;;
  when (pressed w BtnAuthOAuth) (modify (set_auth_method "OAuth 2.0")) ;;
  when (pressed w BtnAuthApiKey) (modify (set_auth_method "API Key")) ;;
  when (pressed w BtnAuthBearer) (modify (set_auth_method "Bearer Token")) ;;
  when (pressed w BtnAuthAuto) (modify (set_auth_method "Auto-detect")) ;;
  s <- get ;;
  show (StInfo ("Selected: " ++ auth_method s)) ;;
  when (pressed w BtnGenerate)
    (modify (set_step 2) ;; rerun).

(** Step 2: the code is generated on every run of the page. *)
Definition generate_page (env : Env) (w : Widgets) : App unit :=
  s <- get ;;
  code <- generate_integration_code env (api_doc_url s) (auth_method s)
                                    "Python" ;;
  modify (set_generated_code (Some code)) ;;
  s <- get ;;
  for_each (ai_insights s) (fun insight => show (StMarkdown insight)) ;;
  show (StSuccess "✅ Code generation complete!") ;;
  when (pressed w BtnReview)
    (modify (set_step 3) ;; rerun).

(** The exception of the review page when there is no code to slice. *)
Definition no_code_error : string :=
  "TypeError: 'NoneType' object is not subscriptable".

(** Step 3: the code is sliced and analysed ([None] cannot be sliced),
    then the two navigation buttons. *)
Definition review_page (w : Widgets) : App unit :=
  s <- get ;;
  match generated_code s with
  | None => raise no_code_error
  | Some code =>
      match analyze_code_quality code with
      | (metrics, score) =>
          show (StMarkdown (format_1f score ++ "/10")) ;;
          for_each metrics (fun kv => show (StMarkdown (snd kv))) ;;
          when (pressed w BtnBack)
            (modify (set_step 1) ;; rerun) ;;
          when (pressed w BtnTestSandbox)
            (modify (set_step 4) ;; rerun)
      end
  end.

(** The scripted test cases of the sandbox page. *)
Definition sandbox_tests : list (string * string * string) :=
  [ ("Authentication", "✅ Passed", "Connected successfully")
  ; ("Get Users", "✅ Passed", "Retrieved 25 users")
  ; ("Pagination", "✅ Passed", "Iterated through 3 pages (75 records)")
  ; ("Error Handling", "✅ Passed", "Gracefully handled 429 rate limit")
  ].

Definition msg_test_credentials : string :=
  "💡 Use test credentials provided by the API provider".

(** Step 4: running the tests sets [sandbox_passed]; the deploy button is
    live only under [sandbox_passed], otherwise it is drawn disabled and
    its value is not looked at. *)
Definition sandbox_page (w : Widgets) : App unit :=
  show (StInfo msg_test_credentials) ;;
  when (pressed w BtnRunAllTests)
    (for_each sandbox_tests
       (fun t =>
          match t with
          | (test_name, st, details) =>
              show (StSuccess ("**" ++ test_name ++ "**: " ++ st
                               ++ " - " ++ details))
          end) ;;
     modify (set_sandbox_passed true)) ;;
  when (pressed w BtnBackToCode)
    (modify (set_step 3) ;; rerun) ;;
  s <- get ;;
  if sandbox_passed s then
    when (pressed w BtnDeployToProduction)
      (modify (set_step 5) ;; rerun)
  else
    show (StButtonDisabled BtnDeployToProduction) ;;
    show (StCaption "Run tests first to enable deployment").

(** What [st.download_button] raises when its data is [None]. *)
Definition download_error : string := "StreamlitAPIException".

(** Step 5: the download button is handed the generated code, which must
    be a text; the deploy button only reports success; the button that
    starts a new integration sits inside its branch. *)
Definition deploy_page (w : Widgets) : App unit :=
  s <- get ;;
  match generated_code s with
  | None => raise download_error
  | Some _ =>
      when (pressed w BtnDeploy)
        (show (StSuccess "✅ Successfully deployed to production!") ;;
         when (pressed w BtnStartNew)
           (modify (set_step 1) ;;
            modify (set_generated_code None) ;;
            modify (set_sandbox_passed false) ;;
            rerun))
  end.

Definition main (env : Env) (w : Widgets) : App unit :=
  sidebar env w ;;
  s <- get ;;
  if (step s =? 1)%Z then configure_page w
  else if (step s =? 2)%Z then generate_page env w
  else if (step s =? 3)%Z then review_page w
  else if (step s =? 4)%Z then sandbox_page w
  else if (step s =? 5)%Z then deploy_page w
  else ret tt.

(** The session a run leaves behind. *)
Definition after (env : Env) (w : Widgets) (s : Session) : Session :=
  state_of (main env w s).

(** The sessions a user can bring about: every user action starts a run,
    and so does every [st.rerun()]. *)
Inductive reachable : Session -> Prop :=
  | reach_initial : reachable initial
  | reach_run : forall env w s,
      reachable s -> reachable (after env w s).

(** The run in which the branch that starts a new integration executes. *)
Definition is_reset (w : Widgets) (s : Session) : bool :=
  (step s =? 5)%Z && pressed w BtnDeploy && pressed w BtnStartNew.

(** The session after the sidebar alone: the typed key is stored when the
    image has loaded. *)
Definition after_sidebar (env : Env) (w : Widgets) (s : Session)
  : Session :=
  if image_loads env && truthy (key_field w)
  then set_anthropic_key (Some (key_field w)) s
  else s.

(** *** Concrete inputs used in examples *)

Definition Button_eqb (a b : Button) : bool :=
  match a, b with
  | BtnAuthOAuth, BtnAuthOAuth | BtnAuthApiKey, BtnAuthApiKey
  | BtnAuthBearer, BtnAuthBearer | BtnAuthAuto, BtnAuthAuto
  | BtnGenerate, BtnGenerate | BtnReview, BtnReview
  | BtnBack, BtnBack | BtnTestSandbox, BtnTestSandbox
  | BtnRunAllTests, BtnRunAllTests | BtnBackToCode, BtnBackToCode
  | BtnDeployToProduction, BtnDeployToProduction
  | BtnDeploy, BtnDeploy | BtnStartNew, BtnStartNew => true
  | _, _ => false
  end.

Definition default_url : string :=
  "https://developer.calendly.com/api-docs/4b402d5ab3edd-calendly-developer".

(** A run started by a click on [b], the fields left as they are drawn. *)
Definition click (b : Button) : Widgets :=
  mkWidgets EmptyString default_url (Button_eqb b).

(** A run in which no button is pressed (the run after [st.rerun()]). *)
Definition idle : Widgets :=
  mkWidgets EmptyString default_url (fun _ => false).

(** The image loads, the secrets file holds no key, and the service
    always fails. *)
Definition env_offline : Env :=
  mkEnv true (SecretsFile None) (fun _ _ => Failure "connection refused").

(** The image loads, the secrets file holds a key, and the service answers
    with [t]. *)
Definition env_answering (t : string) : Env :=
  mkEnv true (SecretsFile (Some "sk-test")) (fun _ _ => Text t).

(** The image loads, the secrets file holds a key, and the service
    fails. *)
Definition env_failing : Env :=
  mkEnv true (SecretsFile (Some "sk-test")) (fun _ _ => Failure "overloaded").

(** The image loads and there is no secrets file. *)
Definition env_no_secrets : Env :=
  mkEnv true NoSecretsFile (fun _ _ => Failure "connection refused").

(** The image of the sidebar cannot be opened. *)
Definition env_no_image : Env :=
  mkEnv false (SecretsFile None) (fun _ _ => Failure "connection refused").

Definition runs (env : Env) (ws : list Widgets) (s : Session) : Session :=
  fold_left (fun s w => after env w s) ws s.

(** *** The pages as state transformers (what the lemmas below derive
    from the script) *)

Definition fallback_shown (e : string) : list Shown :=
  [StError ("❌ Error generating code: " ++ e);
   StInfo "Falling back to demo mode..."].

(** The authentication buttons of step 1, in the order they are drawn. *)
Definition auth_choice (w : Widgets) (s : Session) : Session :=
  let s := if pressed w BtnAuthOAuth then set_auth_method "OAuth 2.0" s
           else s in
  let s := if pressed w BtnAuthApiKey then set_auth_method "API Key" s
           else s in
  let s := if pressed w BtnAuthBearer then set_auth_method "Bearer Token" s
           else s in
  if pressed w BtnAuthAuto then set_auth_method "Auto-detect" s else s.

(** *** More concrete inputs *)

(** The run in which both buttons of the deploy page report a press. *)
Definition w_reset : Widgets :=
  mkWidgets EmptyString default_url
            (fun b => Button_eqb b BtnDeploy || Button_eqb b BtnStartNew).

(** The forward button of step 1 pressed with the URL field emptied. *)
Definition w_empty_url : Widgets :=
  mkWidgets EmptyString EmptyString (Button_eqb BtnGenerate).

(** A user without credential who walks through the pages. *)
Definition at_review : Session :=
  runs env_offline [click BtnGenerate; idle; click BtnReview] initial.
Definition at_sandbox : Session :=
  after env_offline (click BtnTestSandbox) at_review.
Definition tested : Session :=
  after env_offline (click BtnRunAllTests) at_sandbox.
Definition deployed : Session :=
  after env_offline (click BtnDeployToProduction) tested.

(** [w] is a run started by a click on [b] alone. *)
Definition clicks (b : Button) (w : Widgets) : Prop :=
  forall b', pressed w b' = Button_eqb b b'.

(** What the sidebar shows. *)
Definition sidebar_shown (w : Widgets) : list Shown :=
  if truthy (key_field w) then [StSuccess "API key configured!"] else [].

(** *** The claims about the workflow, as the specification words them *)

(** The five fields that the navigation buttons leave alone. *)
Definition same_fields (s s' : Session) : Prop :=
  generated_code s' = generated_code s /\
  sandbox_passed s' = sandbox_passed s /\
  ai_insights s' = ai_insights s /\
  api_doc_url s' = api_doc_url s /\
  auth_method s' = auth_method s.

(** "The resulting step is greater than or equal to the previous step." *)
Definition moves_forward (env : Env) (w : Widgets) (s : Session) : Prop :=
  (step s <= step (after env w s))%Z.

(** "Reset clears exactly generated_code, sandbox_passed and ai_insights
    and sets step to 1; every other field is left unchanged." *)
Definition reset_clears_three (env : Env) (w : Widgets) (s : Session)
  : Prop :=
  let s' := after env w s in
  step s' = 1%Z /\
  generated_code s' = None /\
  sandbox_passed s' = false /\
  ai_insights s' = [] /\
  api_doc_url s' = api_doc_url s /\
  auth_method s' = auth_method s.

(** "Rejected with a ValidationError and no session state changes." *)
Definition rejected_unchanged (env : Env) (w : Widgets) (s : Session)
  : Prop :=
  (exists e, outcome (main env w s) = inr (Raised e)) /\
  after env w s = s.

(** *** The claims about generation and analysis, as the specification
    words them *)

(** "generate never raises and always yields non-empty code text." *)
Definition returns_nonempty_code (env : Env) (s : Session)
    (doc_url auth : string) : Prop :=
  exists code,
    outcome (generate_integration_code env doc_url auth "Python" s)
    = inl code /\
    code <> EmptyString.

(** "All six checks report Passed (score = 10.0)." *)
Definition all_six_passed (code : string) : Prop :=
  (forall name st,
      In (name, st) (fst (analyze_code_quality code)) -> st = "✓ Passed") /\
  format_1f (snd (analyze_code_quality code)) = "10.0".

(** The six conditions in the order of the dictionary. *)
Definition checks (code : string) : list bool :=
  [ check_security code; check_error_handling code; check_pagination code;
    check_rate_limiting code; check_logging code; check_best_practices code ].

Definition count_true (l : list bool) : nat :=
  List.length (filter (fun b : bool => b) l).

(** The seven scores, as displayed. *)
Definition displayed_scores : list string :=
  ["0.0"; "1.7"; "3.3"; "5.0"; "6.7"; "8.3"; "10.0"].

(** "A marker occurs in the text ignoring case." *)
Definition occurs_ignoring_case (marker code : string) : bool :=
  contains (lower marker) (lower code).

(** "A marker's line is emitted if and only if the marker occurs in the
    text ignoring case", for the five markers. *)
Definition line_iff_marker (code api_url : string) : Prop :=
  let out := extract_insights code api_url in
  (In insight_oauth out <-> occurs_ignoring_case "oauth" code = true) /\
  (In insight_cursor out <-> occurs_ignoring_case "cursor" code = true) /\
  (In insight_offset out <-> occurs_ignoring_case "offset" code = true) /\
  (In insight_rate_limit out
   <-> occurs_ignoring_case "rate_limit" code = true) /\
  (In insight_retry out <-> occurs_ignoring_case "retry" code = true).

(** A line that is present or not. *)
Definition optional (b : bool) (line : string) : list string :=
  if b then [line] else [].

(** ** The tabs of the review page (source lines 797 to 807)

    The tab "Auth Setup" shows [generated_code[:2000]]; the tab
    "API Client", when the code contains [class], shows 2000 characters
    from [generated_code.find("class", 500)]. *)

(** [s[n:]] for [0 <= n]. *)
Definition drop_chars (n : nat) (s : string) : string :=
  unchars (skipn n (chars s)).

(** A slice bound brought into [0, len]: a negative bound counts from the
    end. *)
Definition norm_index (len i : Z) : Z :=
  if (i <? 0)%Z then Z.max 0 (i + len) else Z.min i len.

(** [s[i:j]] *)
Definition slice (i j : Z) (s : string) : string :=
  let len := Z.of_nat (char_length s) in
  let a := norm_index len i in
  let b := norm_index len j in
  unchars (firstn (Z.to_nat (b - a)) (skipn (Z.to_nat a) (chars s))).

(** The search of [find] in the characters [l] that are left, the first of
    which has index [pos]. *)
Fixpoint find_at (sub : string) (pos : nat) (l : list string) : Z :=
  if String.prefix sub (unchars l) then Z.of_nat pos
  else match l with
       | [] => (-1)%Z
       | _ :: l' => find_at sub (S pos) l'
       end.

(** [s.find(sub, start)] for [0 <= start]: the lowest index from [start]
    on at which [sub] occurs, or [-1]. *)
Definition find (sub : string) (start : nat) (s : string) : Z :=
  if (start <=? char_length s)%nat
  then find_at sub start (skipn start (chars s))
  else (-1)%Z.

Definition auth_section (code : string) : string :=
  slice 0 2000 code.

(** The text of the third tab, when the tab shows one. *)
Definition client_section (code : string) : option string :=
  if contains "class" code then
    let client_start := find "class" 500 code in
    Some (slice client_start (client_start + 2000) code)
  else None.

(** *** Predicates used by the properties of the workflow *)

(** At most one button reports a press in the run. *)
Definition one_button (w : Widgets) : Prop :=
  forall b1 b2, pressed w b1 = true -> pressed w b2 = true -> b1 = b2.

(** The four authentication methods of the configure page. *)
Definition auth_methods : list string :=
  ["OAuth 2.0"; "API Key"; "Bearer Token"; "Auto-detect"].

(** The insight list belongs to the stored code: it is the fixed list of
    the fallback next to the fallback sample, or what the extractor finds
    in the code. *)
Definition insights_match (s : Session) : Prop :=
  forall code,
    generated_code s = Some code ->
    (code = demo_code /\ ai_insights s = demo_insights) \/
    ai_insights s = extract_insights code (api_doc_url s).

(** What the orchestrator returns and the insights it stores when
    [st.secrets] can be read, read off its three paths. *)
Definition generated (env : Env) (s : Session) : string * list string :=
  if no_credential env s then (demo_code, demo_insights)
  else
    match messages_create env (api_key_of env s)
            (build_prompt (api_doc_url s) (auth_method s) "Python") with
    | Text t => (t, extract_insights t (api_doc_url s))
    | Failure _ => (demo_code, demo_insights)
    end.

(** The messages of the scripted test run. *)
Definition sandbox_shown : list Shown :=
  [ StSuccess "**Authentication**: ✅ Passed - Connected successfully"
  ; StSuccess "**Get Users**: ✅ Passed - Retrieved 25 users"
  ; StSuccess
      "**Pagination**: ✅ Passed - Iterated through 3 pages (75 records)"
  ; StSuccess
      "**Error Handling**: ✅ Passed - Gracefully handled 429 rate limit"
  ].

(** ** The progress list of the sidebar (source lines 644 to 656) *)

Definition steps : list (string * Z) :=
  [ ("1️⃣ Configure", 1%Z)
  ; ("2️⃣ Generate", 2%Z)
  ; ("3️⃣ Review Code", 3%Z)
  ; ("4️⃣ Test Sandbox", 4%Z)
  ; ("5️⃣ Deploy", 5%Z)
  ].

Definition ticked (step_name : string) : string :=
  "**" ++ step_name ++ "** ✓".

(** One line of the list: ticked when the session is at that step or
    beyond. *)
Definition progress_line (s : Session) (entry : string * Z) : string :=
  match entry with
  | (step_name, step_num) =>
      if (step s >=? step_num)%Z then ticked step_name else step_name
  end.

Definition sidebar_progress (s : Session) : list string :=
  map (progress_line s) steps.

(** The shortest way to the deploy page, one click per run. *)
Definition way_to_deploy (s : Session) : list Widgets :=
  if (step s =? 1)%Z then
    [click BtnGenerate; click BtnReview; click BtnTestSandbox;
     click BtnRunAllTests; click BtnDeployToProduction]
  else if (step s =? 2)%Z then
    [click BtnReview; click BtnTestSandbox;
     click BtnRunAllTests; click BtnDeployToProduction]
  else if (step s =? 3)%Z then
    [click BtnTestSandbox; click BtnRunAllTests; click BtnDeployToProduction]
  else
    [click BtnRunAllTests; click BtnDeployToProduction].

(** A character of a text: a byte followed by continuation bytes only. *)
Fixpoint all_continuation (s : string) : bool :=
  match s with
  | EmptyString => true
  | String c s' => continuation c && all_continuation s'
  end.

Definition is_char (ch : string) : Prop :=
  match ch with
  | EmptyString => False
  | String _ rest => all_continuation rest = true
  end.

(** The situations in which a run raises. *)
Definition raising (env : Env) (s : Session) : Prop :=
  image_loads env = false \/
  (step s = 2%Z /\ secrets env = NoSecretsFile) \/
  (step s = 3%Z /\ generated_code s = None) \/
  (step s = 5%Z /\ generated_code s = None).

(** * Examples

    The definitions evaluated on small inputs. *)

Example contains_is_substring_search :
  contains "ursor" "next_cursor=" = true /\
  contains "cursor" "Cursor" = false /\
  contains "cursor" (lower "Next CURSOR") = true /\
  contains EmptyString "abc" = true.
Proof. split; [|split; [|split]]; reflexivity. Qed.

Example count_does_not_overlap :
  count "aa" "aaaa" = 2%nat /\
  count "aa" "aaa" = 1%nat /\
  count "def get_" "def get_a(): pass; def get_b(): pass" = 2%nat /\
  count EmptyString "abc" = 4%nat.
Proof. split; [|split; [|split]]; reflexivity. Qed.

Example chars_are_characters :
  chars "aé✓b" = ["a"; "é"; "✓"; "b"] /\
  char_length "aé✓b" = 4%nat /\
  String.length "aé✓b" = 7%nat.
Proof. split; [|split]; reflexivity. Qed.

Example take_chars_is_a_prefix :
  take_chars 3 "abcdef" = "abc" /\
  take_chars 10 "abc" = "abc" /\
  take_chars 2 "é✓b" = "é✓".
Proof. split; [|split]; reflexivity. Qed.

Example extract_insights_on_a_snippet :
  extract_insights
    "def list_users(cursor): retry(); def get_me(): oauth()" default_url
  = [ insight_oauth; insight_cursor; insight_retry;
      "• Found 2 data retrieval methods" ].
Proof. reflexivity. Qed.

Example extract_insights_on_the_sample :
  extract_insights demo_code default_url
  = [ insight_oauth; insight_retry; "• Found 6 data retrieval methods" ].
Proof. vm_compute. reflexivity. Qed.

Example analyze_on_a_snippet :
  fst (analyze_code_quality "try: x = os.environ['K'] except: logging.x")
  = [ ("security", "✓ Passed"); ("error_handling", "✓ Passed");
      ("pagination", "⚠️ Warning"); ("rate_limiting", "⚠️ Warning");
      ("logging", "✓ Passed"); ("best_practices", "✓ Passed") ] /\
  format_1f (snd (analyze_code_quality
                    "try: x = os.environ['K'] except: logging.x")) = "6.7".
Proof. split; vm_compute; reflexivity. Qed.

Example format_1f_rounds_to_even_on_ties :
  format_1f (PrimFloat.div (float_of_nat 1) (float_of_nat 4)) = "0.2" /\
  format_1f (PrimFloat.div (float_of_nat 3) (float_of_nat 4)) = "0.8" /\
  format_1f (PrimFloat.div (float_of_nat 5) (float_of_nat 3)) = "1.7" /\
  format_1f (float_of_nat 10) = "10.0".
Proof. split; [|split; [|split]]; vm_compute; reflexivity. Qed.

Example prompt_mentions_the_inputs :
  contains "API Documentation URL: https://example.org/docs"
           (build_prompt "https://example.org/docs" "API Key" "Python")
  = true /\
  contains "   - Handle API Key"
           (build_prompt "https://example.org/docs" "API Key" "Python")
  = true.
Proof. split; vm_compute; reflexivity. Qed.

Example a_walk_through_the_pages :
  step at_review = 3%Z /\
  step at_sandbox = 4%Z /\ sandbox_passed at_sandbox = false /\
  step tested = 4%Z /\ sandbox_passed tested = true /\
  step deployed = 5%Z /\
  generated_code deployed = Some demo_code /\
  after env_offline (click BtnStartNew) deployed = deployed /\
  after env_offline w_reset deployed
  = mkSession 1 None default_url "OAuth 2.0" false demo_insights None.
Proof. repeat (split; [vm_compute; reflexivity|]). vm_compute. reflexivity. Qed.

Example review_without_code_raises :
  outcome (main env_offline idle (set_step 3 initial))
  = inr (Raised no_code_error).
Proof. reflexivity. Qed.

Example nothing_happens_without_the_image :
  main env_no_image (click BtnGenerate) initial
  = (inr (Raised image_error), initial, []).
Proof. reflexivity. Qed.

Example generate_page_without_secrets_file :
  main env_no_secrets idle (set_step 2 initial)
  = (inr (Raised secrets_error), set_step 2 initial, []).
Proof. reflexivity. Qed.

(** * Properties *)

Arguments demo_code : simpl never.
Arguments demo_insights : simpl never.
Arguments build_prompt : simpl never.
Arguments extract_insights : simpl never.
Arguments analyze_code_quality : simpl never.
Arguments format_1f : simpl never.

(** ** The run monad *)

Section Monad.
Context {A B : Type}.

Lemma state_bind (m : App A) (k : A -> App B) s :
  state_of (bind m k s) =
  match outcome (m s) with
  | inl a => state_of (k a (state_of (m s)))
  | inr _ => state_of (m s)
  end.
Proof.
  unfold state_of, outcome, bind.
  destruct (m s) as [[[a|sig] s1] out1]; simpl; [|reflexivity].
  destruct (k a s1) as [[r s2] out2]; reflexivity.
Qed.

Lemma outcome_bind (m : App A) (k : A -> App B) s :
  outcome (bind m k s) =
  match outcome (m s) with
  | inl a => outcome (k a (state_of (m s)))
  | inr sig => inr sig
  end.
Proof.
  unfold state_of, outcome, bind.
  destruct (m s) as [[[a|sig] s1] out1]; simpl; [|reflexivity].
  destruct (k a s1) as [[r s2] out2]; reflexivity.
Qed.

Lemma shown_bind (m : App A) (k : A -> App B) s :
  shown_of (bind m k s) =
  match outcome (m s) with
  | inl a => (shown_of (m s) ++ shown_of (k a (state_of (m s))))%list
  | inr _ => shown_of (m s)
  end.
Proof.
  unfold state_of, outcome, shown_of, bind.
  destruct (m s) as [[[a|sig] s1] out1]; simpl; [|reflexivity].
  destruct (k a s1) as [[r s2] out2]; reflexivity.
Qed.
End Monad.

Lemma for_each_show {A : Type} (f : A -> Shown) (l : list A) (s : Session) :
  for_each l (fun a => show (f a)) s = (inl tt, s, map f l).
Proof.
  induction l as [|a l IH]; [reflexivity|].
  simpl. unfold bind, show at 1. rewrite IH. reflexivity.
Qed.

Lemma state_when b m s :
  state_of (when b m s) = if b then state_of (m s) else s.
Proof. destruct b; reflexivity. Qed.

Lemma outcome_when b m s :
  outcome (when b m s) = if b then outcome (m s) else inl tt.
Proof. destruct b; reflexivity. Qed.

Lemma state_for_each_show {A : Type} (f : A -> Shown) l s :
  state_of (for_each l (fun a => show (f a)) s) = s.
Proof. rewrite for_each_show. reflexivity. Qed.

Lemma outcome_for_each_show {A : Type} (f : A -> Shown) l s :
  outcome (for_each l (fun a => show (f a)) s) = inl tt.
Proof. rewrite for_each_show. reflexivity. Qed.

Lemma state_get s : state_of (get s) = s.
Proof. reflexivity. Qed.
Lemma outcome_get s : outcome (get s) = inl s.
Proof. reflexivity. Qed.
Lemma state_modify f s : state_of (modify f s) = f s.
Proof. reflexivity. Qed.
Lemma outcome_modify f s : outcome (modify f s) = inl tt.
Proof. reflexivity. Qed.
Lemma state_show e s : state_of (show e s) = s.
Proof. reflexivity. Qed.
Lemma outcome_show e s : outcome (show e s) = inl tt.
Proof. reflexivity. Qed.
Lemma state_rerun s : state_of (rerun s) = s.
Proof. reflexivity. Qed.
Lemma outcome_rerun s : outcome (rerun s) = inr Rerun.
Proof. reflexivity. Qed.

Create Rewrite HintDb app.
#[local] Hint Rewrite @state_bind @outcome_bind state_when outcome_when
  @state_for_each_show @outcome_for_each_show
  state_get outcome_get state_modify outcome_modify
  state_show outcome_show state_rerun outcome_rerun : app.

(** ** The orchestrator in closed form *)

Lemma generate_integration_code_eq env doc auth lang s :
  generate_integration_code env doc auth lang s =
  match secrets env with
  | NoSecretsFile => (inr (Raised secrets_error), s, [])
  | SecretsFile _ =>
      if no_credential env s then
        (inl demo_code, set_ai_insights demo_insights s,
         [StWarning msg_no_key])
      else
        match messages_create env (api_key_of env s)
                              (build_prompt doc auth lang) with
        | Text t => (inl t, set_ai_insights (extract_insights t doc) s, [])
        | Failure e =>
            (inl demo_code, set_ai_insights demo_insights s,
             fallback_shown e)
        end
  end.
Proof.
  unfold generate_integration_code, no_credential, api_key_of, secret_key,
    in_secrets, secrets_get.
  destruct (secrets env) as [|[k|]]; [reflexivity| |].
  - unfold bind at 1, ret at 1, bind at 1, get at 1. cbn [negb andb app].
    unfold try_except, bind at 1, get at 1, bind at 1, ret at 1.
    cbn [app].
    destruct (messages_create env (Some k) (build_prompt doc auth lang));
      reflexivity.
  - unfold bind at 1, ret at 1, bind at 1, get at 1. cbn [negb andb app].
    destruct (no_session_key s); [reflexivity|].
    unfold try_except, bind at 1, get at 1, bind at 1, ret at 1.
    cbn [app].
    destruct (messages_create env (anthropic_key s)
                (build_prompt doc auth lang)); reflexivity.
Qed.

(** With a secrets file the orchestrator returns a text and touches
    [ai_insights] only; without one it raises and touches nothing. *)
Lemma generate_integration_code_state env doc auth lang s :
  (secrets env = NoSecretsFile /\
   outcome (generate_integration_code env doc auth lang s)
   = inr (Raised secrets_error) /\
   state_of (generate_integration_code env doc auth lang s) = s) \/
  (secrets env <> NoSecretsFile /\
   exists code insights,
     outcome (generate_integration_code env doc auth lang s) = inl code /\
     state_of (generate_integration_code env doc auth lang s) =
     set_ai_insights insights s).
Proof.
  rewrite generate_integration_code_eq.
  destruct (secrets env) as [|k]; [left; auto|].
  right. split; [discriminate|].
  destruct (no_credential env s);
    [do 2 eexists; split; reflexivity|].
  destruct (messages_create env (api_key_of env s) (build_prompt doc auth lang));
    do 2 eexists; split; reflexivity.
Qed.

(** ** The pages, one run at a time *)

Lemma state_sidebar env w s :
  state_of (sidebar env w s) = after_sidebar env w s.
Proof.
  unfold sidebar, after_sidebar.
  destruct (image_loads env), (truthy (key_field w)); reflexivity.
Qed.

Lemma outcome_sidebar env w s :
  outcome (sidebar env w s) =
  if image_loads env then inl tt else inr (Raised image_error).
Proof.
  unfold sidebar.
  destruct (image_loads env), (truthy (key_field w)); reflexivity.
Qed.

#[local] Hint Rewrite state_sidebar outcome_sidebar : app.

Lemma step_after_sidebar env w s : step (after_sidebar env w s) = step s.
Proof.
  unfold after_sidebar.
  destruct (image_loads env && truthy (key_field w)); reflexivity.
Qed.

Lemma after_sidebar_no_image env w s :
  image_loads env = false -> after_sidebar env w s = s.
Proof. intros H. unfold after_sidebar. rewrite H. reflexivity. Qed.

(** The page a run draws is chosen by [step]; without the image no page is
    drawn. *)
Lemma after_page env w s :
  after env w s =
  let s0 := after_sidebar env w s in
  if image_loads env then
    if (step s =? 1)%Z then state_of (configure_page w s0)
    else if (step s =? 2)%Z then state_of (generate_page env w s0)
    else if (step s =? 3)%Z then state_of (review_page w s0)
    else if (step s =? 4)%Z then state_of (sandbox_page w s0)
    else if (step s =? 5)%Z then state_of (deploy_page w s0)
    else s0
  else s0.
Proof.
  unfold after, main. autorewrite with app.
  destruct (image_loads env); [|reflexivity].
  autorewrite with app. rewrite step_after_sidebar. simpl.
  repeat match goal with |- context [if ?b then _ else _] =>
    destruct b; [reflexivity|] end.
  reflexivity.
Qed.

Lemma state_configure w s :
  state_of (configure_page w s) =
  let s1 := auth_choice w (set_api_doc_url (doc_url_field w) s) in
  if pressed w BtnGenerate then set_step 2 s1 else s1.
Proof.
  unfold configure_page, auth_choice. autorewrite with app.
  destruct (pressed w BtnAuthOAuth), (pressed w BtnAuthApiKey),
           (pressed w BtnAuthBearer), (pressed w BtnAuthAuto),
           (pressed w BtnGenerate); reflexivity.
Qed.

(** The generate page stores nothing when the orchestrator raises. *)
Lemma state_generate env w s :
  (secrets env = NoSecretsFile /\ state_of (generate_page env w s) = s) \/
  (secrets env <> NoSecretsFile /\
   exists code insights,
     state_of (generate_page env w s) =
     let s1 := set_generated_code (Some code)
                 (set_ai_insights insights s) in
     if pressed w BtnReview then set_step 3 s1 else s1).
Proof.
  destruct (generate_integration_code_state env (api_doc_url s)
              (auth_method s) "Python" s)
    as [(Hn & Ho & Hs)|(Hn & code & insights & Ho & Hs)].
  - left. split; [exact Hn|].
    unfold generate_page. autorewrite with app. rewrite Ho. exact Hs.
  - right. split; [exact Hn|]. exists code, insights.
    unfold generate_page. autorewrite with app. rewrite Ho, Hs.
    autorewrite with app.
    destruct (pressed w BtnReview); reflexivity.
Qed.

Lemma state_review w s :
  state_of (review_page w s) =
  match generated_code s with
  | None => s
  | Some _ =>
      if pressed w BtnBack then set_step 1 s
      else if pressed w BtnTestSandbox then set_step 4 s
      else s
  end.
Proof.
  unfold review_page. autorewrite with app.
  destruct (generated_code s) as [code|]; [|reflexivity].
  destruct (analyze_code_quality code) as [metrics score].
  autorewrite with app.
  destruct (pressed w BtnBack), (pressed w BtnTestSandbox); reflexivity.
Qed.

Lemma state_sandbox w s :
  state_of (sandbox_page w s) =
  let s1 := if pressed w BtnRunAllTests then set_sandbox_passed true s
            else s in
  if pressed w BtnBackToCode then set_step 3 s1
  else if sandbox_passed s1 && pressed w BtnDeployToProduction
       then set_step 5 s1
       else s1.
Proof.
  unfold sandbox_page. autorewrite with app.
  destruct (pressed w BtnRunAllTests), (pressed w BtnBackToCode),
           (pressed w BtnDeployToProduction), (sandbox_passed s) eqn:E;
    simpl; autorewrite with app; simpl; rewrite ?E; reflexivity.
Qed.

Lemma state_deploy w s :
  state_of (deploy_page w s) =
  match generated_code s with
  | None => s
  | Some _ =>
      if pressed w BtnDeploy && pressed w BtnStartNew
      then set_sandbox_passed false (set_generated_code None (set_step 1 s))
      else s
  end.
Proof.
  unfold deploy_page. autorewrite with app.
  destruct (generated_code s); [|reflexivity].
  destruct (pressed w BtnDeploy), (pressed w BtnStartNew); reflexivity.
Qed.

Lemma outcome_configure w s :
  outcome (configure_page w s) =
  if pressed w BtnGenerate then inr Rerun else inl tt.
Proof.
  unfold configure_page. autorewrite with app.
  destruct (pressed w BtnAuthOAuth), (pressed w BtnAuthApiKey),
           (pressed w BtnAuthBearer), (pressed w BtnAuthAuto),
           (pressed w BtnGenerate); reflexivity.
Qed.

(** The orchestrator on the generate page, when [st.secrets] can be
    read. *)
Lemma generated_eq env s :
  secrets env <> NoSecretsFile ->
  outcome (generate_integration_code env (api_doc_url s) (auth_method s)
             "Python" s) = inl (fst (generated env s)) /\
  state_of (generate_integration_code env (api_doc_url s) (auth_method s)
              "Python" s) = set_ai_insights (snd (generated env s)) s.
Proof.
  intros Hn. rewrite generate_integration_code_eq. unfold generated.
  destruct (secrets env) as [|k]; [congruence|].
  destruct (no_credential env s); [split; reflexivity|].
  destruct (messages_create env (api_key_of env s)
              (build_prompt (api_doc_url s) (auth_method s) "Python"));
    split; reflexivity.
Qed.

(** The generate page: without a secrets file it raises and stores
    nothing; with one it stores what the orchestrator gives. *)
Lemma page_generate env w s :
  (secrets env = NoSecretsFile /\
   outcome (generate_page env w s) = inr (Raised secrets_error) /\
   state_of (generate_page env w s) = s) \/
  (secrets env <> NoSecretsFile /\
   outcome (generate_page env w s) =
   (if pressed w BtnReview then inr Rerun else inl tt) /\
   state_of (generate_page env w s) =
   let s1 := set_generated_code (Some (fst (generated env s)))
               (set_ai_insights (snd (generated env s)) s) in
   if pressed w BtnReview then set_step 3 s1 else s1).
Proof.
  destruct (generate_integration_code_state env (api_doc_url s)
              (auth_method s) "Python" s)
    as [(Hn & Ho & Hs)|(Hn & _)].
  - left. split; [exact Hn|].
    unfold generate_page. autorewrite with app. rewrite Ho. auto.
  - right. split; [exact Hn|].
    destruct (generated_eq env s Hn) as [Ho Hs].
    unfold generate_page. autorewrite with app. rewrite Ho, Hs.
    autorewrite with app.
    destruct (pressed w BtnReview); split; reflexivity.
Qed.

Lemma outcome_review w s :
  outcome (review_page w s) =
  match generated_code s with
  | None => inr (Raised no_code_error)
  | Some _ =>
      if pressed w BtnBack then inr Rerun
      else if pressed w BtnTestSandbox then inr Rerun
      else inl tt
  end.
Proof.
  unfold review_page. autorewrite with app.
  destruct (generated_code s) as [code|]; [|reflexivity].
  destruct (analyze_code_quality code) as [metrics score].
  autorewrite with app.
  destruct (pressed w BtnBack), (pressed w BtnTestSandbox); reflexivity.
Qed.

Lemma outcome_sandbox w s :
  outcome (sandbox_page w s) =
  let s1 := if pressed w BtnRunAllTests then set_sandbox_passed true s
            else s in
  if pressed w BtnBackToCode then inr Rerun
  else if sandbox_passed s1 && pressed w BtnDeployToProduction
       then inr Rerun
       else inl tt.
Proof.
  unfold sandbox_page. autorewrite with app.
  destruct (pressed w BtnRunAllTests), (pressed w BtnBackToCode),
           (pressed w BtnDeployToProduction), (sandbox_passed s) eqn:E;
    simpl; autorewrite with app; simpl; rewrite ?E; reflexivity.
Qed.

Lemma outcome_deploy w s :
  outcome (deploy_page w s) =
  match generated_code s with
  | None => inr (Raised download_error)
  | Some _ =>
      if pressed w BtnDeploy && pressed w BtnStartNew then inr Rerun
      else inl tt
  end.
Proof.
  unfold deploy_page. autorewrite with app.
  destruct (generated_code s); [|reflexivity].
  destruct (pressed w BtnDeploy), (pressed w BtnStartNew); reflexivity.
Qed.

Lemma outcome_page env w s :
  outcome (main env w s) =
  let s0 := after_sidebar env w s in
  if image_loads env then
    if (step s =? 1)%Z then outcome (configure_page w s0)
    else if (step s =? 2)%Z then outcome (generate_page env w s0)
    else if (step s =? 3)%Z then outcome (review_page w s0)
    else if (step s =? 4)%Z then outcome (sandbox_page w s0)
    else if (step s =? 5)%Z then outcome (deploy_page w s0)
    else inl tt
  else inr (Raised image_error).
Proof.
  unfold main. autorewrite with app.
  destruct (image_loads env); [|reflexivity].
  autorewrite with app. rewrite step_after_sidebar. simpl.
  repeat match goal with |- context [if ?b then _ else _] =>
    destruct b; [reflexivity|] end.
  reflexivity.
Qed.

Lemma after_sidebar_fields env w s :
  step (after_sidebar env w s) = step s /\
  generated_code (after_sidebar env w s) = generated_code s /\
  api_doc_url (after_sidebar env w s) = api_doc_url s /\
  auth_method (after_sidebar env w s) = auth_method s /\
  sandbox_passed (after_sidebar env w s) = sandbox_passed s /\
  ai_insights (after_sidebar env w s) = ai_insights s.
Proof.
  unfold after_sidebar.
  destruct (image_loads env && truthy (key_field w)); simpl; auto 10.
Qed.

(** The pages of a run, state and outcome together.  [s0] is the session
    the sidebar leaves, which differs from [s] in [anthropic_key] at most.
    The cases: the configure page; the generate page without a secrets
    file and with one; the review, sandbox and deploy pages; a step
    without page; a run without the image. *)
Ltac pages env w s :=
  rewrite ?(outcome_page env w s); rewrite ?(after_page env w s); cbv zeta;
  generalize (after_sidebar_fields env w s);
  generalize (after_sidebar env w s);
  let s0 := fresh "s0" in
  intros s0 (F1 & F2 & F3 & F4 & F5 & F6);
  destruct (image_loads env) eqn:Eimg;
  [ destruct (step s =? 1)%Z eqn:E1;
    [ rewrite ?state_configure, ?outcome_configure
    | destruct (step s =? 2)%Z eqn:E2;
      [ destruct (page_generate env w s0)
          as [(Hsec & Hgo & Hgs)|(Hsec & Hgo & Hgs)];
        rewrite ?Hgo, ?Hgs; clear Hgo Hgs
      | destruct (step s =? 3)%Z eqn:E3;
        [ rewrite ?state_review, ?outcome_review
        | destruct (step s =? 4)%Z eqn:E4;
          [ rewrite ?state_sandbox, ?outcome_sandbox
          | destruct (step s =? 5)%Z eqn:E5;
            [ rewrite ?state_deploy, ?outcome_deploy | ] ] ] ] ]
  | ];
  cbv zeta;
  rewrite ?Z.eqb_eq, ?Z.eqb_neq in *.

Ltac fields :=
  cbn [step generated_code api_doc_url auth_method sandbox_passed
       ai_insights anthropic_key set_step set_generated_code
       set_api_doc_url set_auth_method set_sandbox_passed set_ai_insights
       set_anthropic_key].

Ltac fields_in H :=
  cbn [step generated_code api_doc_url auth_method sandbox_passed
       ai_insights anthropic_key set_step set_generated_code
       set_api_doc_url set_auth_method set_sandbox_passed set_ai_insights
       set_anthropic_key] in H.

Lemma auth_choice_fields w s :
  step (auth_choice w s) = step s /\
  generated_code (auth_choice w s) = generated_code s /\
  api_doc_url (auth_choice w s) = api_doc_url s /\
  sandbox_passed (auth_choice w s) = sandbox_passed s /\
  ai_insights (auth_choice w s) = ai_insights s /\
  anthropic_key (auth_choice w s) = anthropic_key s /\
  (auth_method (auth_choice w s) = auth_method s \/
   In (auth_method (auth_choice w s)) auth_methods).
Proof.
  unfold auth_choice, auth_methods.
  destruct (pressed w BtnAuthOAuth), (pressed w BtnAuthApiKey),
           (pressed w BtnAuthBearer), (pressed w BtnAuthAuto);
    simpl; auto 12.
Qed.

(** What the configure page does to the fields, in one hypothesis. *)
Ltac configured w s0 :=
  let s1 := fresh "s1" in
  generalize (auth_choice_fields w (set_api_doc_url (doc_url_field w) s0));
  generalize (auth_choice w (set_api_doc_url (doc_url_field w) s0));
  intros s1 (A1 & A2 & A3 & A4 & A5 & A6 & A7);
  fields_in A1; fields_in A2; fields_in A3; fields_in A4; fields_in A5;
  fields_in A6; fields_in A7.

(** ** Reachable sessions *)

Lemma reachable_runs env ws : forall s, reachable s -> reachable (runs env ws s).
Proof.
  induction ws as [|w ws IH]; intros s H; [exact H|].
  simpl. apply IH. apply reach_run. exact H.
Qed.

Lemma reachable_at_review : reachable at_review.
Proof. apply reachable_runs, reach_initial. Qed.
Lemma reachable_at_sandbox : reachable at_sandbox.
Proof. apply reach_run, reachable_at_review. Qed.
Lemma reachable_tested : reachable tested.
Proof. apply reach_run, reachable_at_sandbox. Qed.
Lemma reachable_deployed : reachable deployed.
Proof. apply reach_run, reachable_tested. Qed.

(** Step 5 is entered from step 4 under [sandbox_passed] only, and nothing
    but the reset, which leaves step 5, clears the flag. *)
Lemma gate_preserved env w s :
  (step s = 5%Z -> sandbox_passed s = true) ->
  step (after env w s) = 5%Z -> sandbox_passed (after env w s) = true.
Proof.
  intros Inv. pages env w s.
  - configured w s0. destruct (pressed w BtnGenerate); fields; lia.
  - intros H. rewrite F5. apply Inv. lia.
  - destruct (pressed w BtnReview); fields; lia.
  - destruct (generated_code s0);
      [destruct (pressed w BtnBack), (pressed w BtnTestSandbox)|];
      fields; lia.
  - destruct (pressed w BtnRunAllTests), (pressed w BtnBackToCode),
             (sandbox_passed s0) eqn:Ep, (pressed w BtnDeployToProduction);
      fields; rewrite ?Ep; cbn [andb]; fields; auto; lia.
  - destruct (generated_code s0);
      [destruct (pressed w BtnDeploy), (pressed w BtnStartNew)|];
      cbn [andb]; fields; try lia; intros _; rewrite F5; apply Inv, E5.
  - intros H. rewrite F5. apply Inv. lia.
  - intros H. rewrite F5. apply Inv. lia.
Qed.

Lemma reachable_gate s :
  reachable s -> step s = 5%Z -> sandbox_passed s = true.
Proof.
  induction 1 as [|env w s H IH]; [discriminate|].
  apply gate_preserved, IH.
Qed.

(** From step 3 on there is generated code. *)
Lemma code_preserved env w s :
  ((3 <= step s)%Z -> generated_code s <> None) ->
  (3 <= step (after env w s))%Z -> generated_code (after env w s) <> None.
Proof.
  intros Inv. pages env w s.
  - configured w s0. destruct (pressed w BtnGenerate); fields; lia.
  - intros H. rewrite F2. apply Inv. lia.
  - destruct (pressed w BtnReview); fields; discriminate.
  - destruct (generated_code s0) eqn:Ec;
      [destruct (pressed w BtnBack), (pressed w BtnTestSandbox)|];
      fields; rewrite ?Ec; try discriminate; try lia.
    intros _ _. apply Inv; [lia | congruence].
  - destruct (pressed w BtnRunAllTests), (pressed w BtnBackToCode),
             (sandbox_passed s0) eqn:Ep, (pressed w BtnDeployToProduction);
      fields; rewrite ?Ep; cbn [andb]; fields;
      intros _; rewrite F2; apply Inv; lia.
  - destruct (generated_code s0) eqn:Ec;
      [destruct (pressed w BtnDeploy), (pressed w BtnStartNew)|];
      cbn [andb]; fields; try lia; intros _; rewrite ?Ec; try discriminate.
    intros _. apply Inv; [lia | congruence].
  - intros H. rewrite F2. apply Inv. lia.
  - intros H. rewrite F2. apply Inv. lia.
Qed.

Lemma reachable_code s :
  reachable s -> (3 <= step s)%Z -> generated_code s <> None.
Proof.
  induction 1 as [|env w s H IH]; [simpl; lia|].
  apply code_preserved, IH.
Qed.

(** The sandbox page with the flag unset and no test run in this run. *)
Lemma main_sandbox_disabled env w s :
  image_loads env = true ->
  step s = 4%Z -> sandbox_passed s = false ->
  pressed w BtnRunAllTests = false -> pressed w BtnBackToCode = false ->
  main env w s =
  (inl tt, after_sidebar env w s,
   (sidebar_shown w ++
    [StInfo msg_test_credentials;
     StButtonDisabled BtnDeployToProduction;
     StCaption "Run tests first to enable deployment"])%list).
Proof.
  intros Hi H4 Hp Ht Hb. destruct s as [st gc url am sp ins key].
  simpl in H4, Hp. subst st sp.
  unfold main, sidebar, sandbox_page, after_sidebar, sidebar_shown.
  rewrite Hi, Ht, Hb.
  destruct (truthy (key_field w)); reflexivity.
Qed.

(** A run without the image stops in the sidebar. *)
Lemma main_no_image env w s :
  image_loads env = false ->
  main env w s = (inr (Raised image_error), s, []).
Proof. intros Hi. unfold main, sidebar. rewrite Hi. reflexivity. Qed.

(** C1. In every session reachable from the initial one, step 5 (Deploy)
    implies [sandbox_passed]; and on step 4, while [sandbox_passed] is
    unset and no test run takes place, a run changes no workflow field,
    whatever the button "Deploy to Production" reports (the session is the
    one the sidebar leaves, which is the session itself when the key field
    is empty): when the page is drawn the run ends normally with that
    button drawn disabled, and when the image of the sidebar cannot be
    opened the run stops there. *)
Theorem deploy_only_after_sandbox_passed :
  forall env w s,
    reachable s ->
    (step s = 5%Z -> sandbox_passed s = true) /\
    (step s = 4%Z -> sandbox_passed s = false ->
     pressed w BtnRunAllTests = false -> pressed w BtnBackToCode = false ->
     after env w s = after_sidebar env w s /\
     (key_field w = EmptyString -> after env w s = s) /\
     (image_loads env = true ->
      outcome (main env w s) = inl tt /\
      In (StButtonDisabled BtnDeployToProduction)
         (shown_of (main env w s))) /\
     (image_loads env = false ->
      outcome (main env w s) = inr (Raised image_error))).
Proof.
  intros env w s Hr. split; [apply reachable_gate, Hr|].
  intros H4 Hp Ht Hb. unfold after.
  destruct (image_loads env) eqn:Hi.
  - rewrite (main_sandbox_disabled env w s Hi H4 Hp Ht Hb).
    split; [reflexivity|]. split; [|split; [|discriminate]].
    + intros Hk. unfold state_of, after_sidebar. simpl.
      rewrite Hk, andb_false_r. reflexivity.
    + intros _. split; [reflexivity|].
      unfold shown_of. simpl. apply in_or_app. right. right. left.
      reflexivity.
  - rewrite (main_no_image env w s Hi), (after_sidebar_no_image env w s Hi).
    split; [reflexivity|]. split; [reflexivity|].
    split; [discriminate | reflexivity].
Qed.

Lemma deploy_only_after_sandbox_passed_witness :
  sandbox_passed deployed = true /\
  after env_offline (click BtnDeployToProduction) at_sandbox = at_sandbox /\
  In (StButtonDisabled BtnDeployToProduction)
     (shown_of (main env_offline (click BtnDeployToProduction) at_sandbox)).
Proof.
  split.
  - refine (proj1 (deploy_only_after_sandbox_passed env_offline idle deployed
                     reachable_deployed) _).
    vm_compute. reflexivity.
  - pose proof (proj2 (deploy_only_after_sandbox_passed env_offline
                         (click BtnDeployToProduction) at_sandbox
                         reachable_at_sandbox)) as H.
    assert (E4 : step at_sandbox = 4%Z) by (vm_compute; reflexivity).
    assert (Ep : sandbox_passed at_sandbox = false)
      by (vm_compute; reflexivity).
    destruct (H E4 Ep eq_refl eq_refl) as (_ & Hk & Hd & _).
    split; [exact (Hk eq_refl) | exact (proj2 (Hd eq_refl))].
Defined.

(** ** Navigation *)

Lemma same_fields_after_sidebar env w s :
  same_fields s (after_sidebar env w s).
Proof.
  unfold same_fields, after_sidebar.
  destruct (image_loads env && truthy (key_field w)); simpl; auto.
Qed.

Lemma is_reset_after_sidebar env w s :
  is_reset w (after_sidebar env w s) = is_reset w s.
Proof. unfold is_reset. rewrite step_after_sidebar. reflexivity. Qed.

Lemma one_button_no_reset w s : one_button w -> is_reset w s = false.
Proof.
  intros H. unfold is_reset.
  destruct (pressed w BtnDeploy) eqn:D, (pressed w BtnStartNew) eqn:N;
    rewrite ?andb_false_r; try reflexivity.
  specialize (H BtnDeploy BtnStartNew D N). discriminate.
Qed.

Lemma click_one_button b : one_button (click b).
Proof.
  intros b1 b2 H1 H2. simpl in H1, H2.
  destruct b, b1; try discriminate; destruct b2; try discriminate;
    reflexivity.
Qed.

(** C5 as stated fails: where the page is drawn at all, the forward button
    of step 1 moves the initial session to step 2 with the URL field
    empty, and nothing is raised. *)
Lemma empty_url_accepted_counterexample :
  image_loads env_offline = true /\
  step initial = 1%Z /\
  doc_url_field w_empty_url = EmptyString /\
  pressed w_empty_url BtnGenerate = true /\
  outcome (main env_offline w_empty_url initial) = inr Rerun /\
  step (after env_offline w_empty_url initial) = 2%Z /\
  ~ rejected_unchanged env_offline w_empty_url initial.
Proof.
  split; [reflexivity|]. split; [reflexivity|]. split; [reflexivity|].
  split; [reflexivity|]. split; [reflexivity|].
  split; [vm_compute; reflexivity|].
  intros [_ H]. apply (f_equal step) in H. vm_compute in H. discriminate.
Qed.

(** C5, amended. The forward button of step 1 validates nothing: whenever
    the page is drawn (the image of the sidebar loads), for every content
    of the URL field, empty or not, the run stores that content in
    [api_doc_url], sets step 2 and asks for a rerun; [generated_code],
    [sandbox_passed] and [ai_insights] are as before. *)
Theorem configure_forward_unconditional :
  forall env w s,
    image_loads env = true ->
    step s = 1%Z ->
    pressed w BtnGenerate = true ->
    outcome (main env w s) = inr Rerun /\
    step (after env w s) = 2%Z /\
    api_doc_url (after env w s) = doc_url_field w /\
    generated_code (after env w s) = generated_code s /\
    sandbox_passed (after env w s) = sandbox_passed s /\
    ai_insights (after env w s) = ai_insights s.
Proof.
  intros env w s Hi H1 Hg.
  rewrite outcome_page, after_page. cbv zeta.
  rewrite Hi, H1. cbn [Z.eqb Pos.eqb].
  rewrite outcome_configure, state_configure, Hg. cbv zeta.
  destruct (after_sidebar_fields env w s) as (F1 & F2 & F3 & F4 & F5 & F6).
  revert F1 F2 F3 F4 F5 F6. generalize (after_sidebar env w s).
  intros s0 F1 F2 F3 F4 F5 F6. configured w s0. fields.
  repeat apply conj; congruence.
Qed.

Lemma configure_forward_unconditional_witness :
  step (after env_offline w_empty_url initial) = 2%Z /\
  api_doc_url (after env_offline w_empty_url initial) = EmptyString.
Proof.
  pose proof (configure_forward_unconditional env_offline w_empty_url initial
                eq_refl eq_refl eq_refl) as H.
  split; [apply H | apply H].
Defined.

(** C9 as stated fails: on the review page, where it is drawn, the button
    "Back" is no reset and takes step 3 to step 1. *)
Lemma step_back_counterexample :
  image_loads env_offline = true /\
  reachable at_review /\
  one_button (click BtnBack) /\
  is_reset (click BtnBack) at_review = false /\
  step at_review = 3%Z /\
  step (after env_offline (click BtnBack) at_review) = 1%Z /\
  ~ moves_forward env_offline (click BtnBack) at_review.
Proof.
  split; [reflexivity|].
  split; [exact reachable_at_review|].
  split; [apply click_one_button|].
  assert (H3 : step at_review = 3%Z) by (vm_compute; reflexivity).
  assert (H1 : step (after env_offline (click BtnBack) at_review) = 1%Z)
    by (vm_compute; reflexivity).
  split; [unfold is_reset; rewrite H3; reflexivity|].
  split; [exact H3|]. split; [exact H1|].
  unfold moves_forward. rewrite H3, H1. lia.
Qed.

(** C9, amended. A run leaves [step] as it is, or advances it by one
    (1 to 2, 2 to 3, 3 to 4, 4 to 5), or takes it back: "Back" from 3 to
    1, "Back to Code" from 4 to 3, and the reset branch from 5 to 1.  The
    reset branch runs only when both buttons of the deploy page report a
    press in the same run; when at most one button reports a press, the
    two back buttons are the only ways back. *)
Theorem step_transitions :
  forall env w s,
    let s' := after env w s in
    (step s' = step s \/
     (step s' = (step s + 1)%Z /\ (1 <= step s <= 4)%Z) \/
     (step s = 3%Z /\ pressed w BtnBack = true /\ step s' = 1%Z) \/
     (step s = 4%Z /\ pressed w BtnBackToCode = true /\ step s' = 3%Z) \/
     (is_reset w s = true /\ step s' = 1%Z)) /\
    (one_button w ->
     step s' = step s \/
     (step s' = (step s + 1)%Z /\ (1 <= step s <= 4)%Z) \/
     (step s = 3%Z /\ pressed w BtnBack = true /\ step s' = 1%Z) \/
     (step s = 4%Z /\ pressed w BtnBackToCode = true /\ step s' = 3%Z)).
Proof.
  intros env w s. cbv zeta.
  assert (H : step (after env w s) = step s \/
              (step (after env w s) = (step s + 1)%Z /\
               (1 <= step s <= 4)%Z) \/
              (step s = 3%Z /\ pressed w BtnBack = true /\
               step (after env w s) = 1%Z) \/
              (step s = 4%Z /\ pressed w BtnBackToCode = true /\
               step (after env w s) = 3%Z) \/
              (is_reset w s = true /\ step (after env w s) = 1%Z)).
  { unfold is_reset. pages env w s.
    - configured w s0. destruct (pressed w BtnGenerate); fields; lia.
    - lia.
    - destruct (pressed w BtnReview); fields; lia.
    - destruct (generated_code s0);
        [destruct (pressed w BtnBack), (pressed w BtnTestSandbox)|];
        fields; try lia; right; right; left; auto.
    - destruct (pressed w BtnRunAllTests), (pressed w BtnBackToCode),
               (sandbox_passed s0) eqn:Ep, (pressed w BtnDeployToProduction);
        fields; rewrite ?Ep; cbn [andb]; fields; try lia;
        right; right; right; left; auto.
    - destruct (generated_code s0);
        [destruct (pressed w BtnDeploy), (pressed w BtnStartNew)|];
        cbn [andb]; fields; lia.
    - lia.
    - lia. }
  split; [exact H|].
  intros Hw. pose proof (one_button_no_reset w s Hw) as R.
  destruct H as [H|[H|[H|[H|[H _]]]]]; auto; congruence.
Qed.

Lemma step_transitions_witness :
  step (after env_offline (click BtnStartNew) deployed) = step deployed.
Proof.
  assert (E : step deployed = 5%Z) by (vm_compute; reflexivity).
  destruct (proj2 (step_transitions env_offline (click BtnStartNew) deployed)
              (click_one_button BtnStartNew))
    as [H|[[_ H]|[[H _]|[H _]]]];
    [exact H | lia | lia | lia].
Defined.

(** The branch of "Start New Integration", in a run in which both buttons
    of the deploy page report a press: [step], [generated_code] and
    [sandbox_passed] are reset, and [ai_insights], [api_doc_url] and
    [auth_method] are kept. *)
Lemma reset_branch env w s :
  image_loads env = true ->
  is_reset w s = true ->
  generated_code s <> None ->
  after env w s =
  set_sandbox_passed false
    (set_generated_code None (set_step 1 (after_sidebar env w s))).
Proof.
  intros Hi H Hc. unfold is_reset in H.
  apply andb_prop in H. destruct H as [H Hn].
  apply andb_prop in H. destruct H as [H5 Hd].
  apply Z.eqb_eq in H5.
  rewrite after_page. cbv zeta. rewrite Hi, H5. cbn [Z.eqb Pos.eqb].
  rewrite state_deploy, Hd, Hn.
  destruct (after_sidebar_fields env w s) as (_ & F2 & _).
  destruct (generated_code (after_sidebar env w s)); [reflexivity|].
  congruence.
Qed.

(** C4. The reset does not take place: "Start New Integration" is drawn
    inside the branch of the deploy button (source lines 999 and 1022), so
    the run that a click on it starts finds the deploy button unpressed
    and never reaches the reset.  On step 5 such a run leaves the session
    as it is, with its code, its flag and its insights, where the claim
    has step 1 and the fields cleared. *)
Theorem start_new_click_is_lost :
  forall env s,
    step s = 5%Z ->
    after env (click BtnStartNew) s = s /\
    step (after env (click BtnStartNew) s) = 5%Z /\
    ~ reset_clears_three env (click BtnStartNew) s.
Proof.
  intros env s H5.
  assert (E : after env (click BtnStartNew) s = s).
  { rewrite after_page. cbv zeta. rewrite H5. cbn [Z.eqb Pos.eqb].
    rewrite state_deploy. cbn [click pressed Button_eqb andb].
    assert (S0 : after_sidebar env (click BtnStartNew) s = s).
    { unfold after_sidebar. cbn [click key_field truthy].
      rewrite andb_false_r. reflexivity. }
    rewrite S0.
    destruct (image_loads env), (generated_code s); reflexivity. }
  split; [exact E|]. split; [rewrite E; exact H5|].
  intros (H1 & _). cbv zeta in H1. rewrite E in H1. lia.
Qed.

Lemma start_new_click_is_lost_witness :
  after env_offline (click BtnStartNew) deployed = deployed /\
  generated_code (after env_offline (click BtnStartNew) deployed)
  = Some demo_code /\
  sandbox_passed (after env_offline (click BtnStartNew) deployed) = true.
Proof.
  assert (E5 : step deployed = 5%Z) by (vm_compute; reflexivity).
  destruct (start_new_click_is_lost env_offline deployed E5) as (E & _).
  split; [exact E|]. rewrite E.
  split; vm_compute; reflexivity.
Defined.

Lemma clicks_pressed b w b' : clicks b w -> pressed w b' = Button_eqb b b'.
Proof. intros H. apply H. Qed.

Lemma same_fields_trans s1 s2 s3 :
  same_fields s1 s2 -> same_fields s2 s3 -> same_fields s1 s3.
Proof.
  unfold same_fields. intros (A1 & A2 & A3 & A4 & A5) (B1 & B2 & B3 & B4 & B5).
  repeat apply conj; congruence.
Qed.

(** "Back" on the review page of a session that has code. *)
Lemma after_back env w s :
  image_loads env = true ->
  step s = 3%Z -> generated_code s <> None -> pressed w BtnBack = true ->
  after env w s = set_step 1 (after_sidebar env w s).
Proof.
  intros Hi H3 Hc Hb. rewrite after_page. cbv zeta.
  rewrite Hi, H3. cbn [Z.eqb Pos.eqb].
  rewrite state_review, Hb.
  destruct (same_fields_after_sidebar env w s) as (Hg & _).
  destruct (generated_code (after_sidebar env w s)); [reflexivity|].
  congruence.
Qed.

(** "Test in Sandbox" on the review page, "Back" not pressed. *)
Lemma after_test_in_sandbox env w s :
  image_loads env = true ->
  step s = 3%Z -> generated_code s <> None ->
  pressed w BtnBack = false -> pressed w BtnTestSandbox = true ->
  after env w s = set_step 4 (after_sidebar env w s).
Proof.
  intros Hi H3 Hc Hb Ht. rewrite after_page. cbv zeta.
  rewrite Hi, H3. cbn [Z.eqb Pos.eqb].
  rewrite state_review, Hb, Ht.
  destruct (same_fields_after_sidebar env w s) as (Hg & _).
  destruct (generated_code (after_sidebar env w s)); [reflexivity|].
  congruence.
Qed.

(** "Back to Code" on the sandbox page, no test run in the same run. *)
Lemma after_back_to_code env w s :
  image_loads env = true ->
  step s = 4%Z ->
  pressed w BtnRunAllTests = false -> pressed w BtnBackToCode = true ->
  after env w s = set_step 3 (after_sidebar env w s).
Proof.
  intros Hi H4 Ht Hb. rewrite after_page. cbv zeta.
  rewrite Hi, H4. cbn [Z.eqb Pos.eqb].
  rewrite state_sandbox, Ht, Hb. reflexivity.
Qed.

(** "Deploy to Production" on the sandbox page with the flag set. *)
Lemma after_deploy_to_production env w s :
  image_loads env = true ->
  step s = 4%Z -> sandbox_passed s = true ->
  pressed w BtnBackToCode = false -> pressed w BtnDeployToProduction = true ->
  after env w s =
  set_step 5 (if pressed w BtnRunAllTests
              then set_sandbox_passed true (after_sidebar env w s)
              else after_sidebar env w s).
Proof.
  intros Hi H4 Hp Hb Hd. rewrite after_page. cbv zeta.
  rewrite Hi, H4. cbn [Z.eqb Pos.eqb].
  rewrite state_sandbox, Hb, Hd. cbv zeta.
  destruct (same_fields_after_sidebar env w s) as (_ & Hsp & _).
  destruct (pressed w BtnRunAllTests); simpl; [reflexivity|].
  rewrite Hsp, Hp. reflexivity.
Qed.

(** Only the reset unsets [sandbox_passed]. *)
Lemma sandbox_passed_kept env w s :
  sandbox_passed s = true -> is_reset w s = false ->
  sandbox_passed (after env w s) = true.
Proof.
  intros Hp Hr. unfold is_reset in Hr. revert Hr. pages env w s; intros Hr.
  - configured w s0. destruct (pressed w BtnGenerate); fields; congruence.
  - congruence.
  - destruct (pressed w BtnReview); fields; congruence.
  - destruct (generated_code s0);
      [destruct (pressed w BtnBack), (pressed w BtnTestSandbox)|];
      fields; congruence.
  - destruct (pressed w BtnRunAllTests), (pressed w BtnBackToCode),
             (sandbox_passed s0) eqn:Ep, (pressed w BtnDeployToProduction);
      fields; rewrite ?Ep; cbn [andb]; fields; congruence.
  - cbn [andb] in Hr. rewrite Hr.
    destruct (generated_code s0); congruence.
  - congruence.
  - congruence.
Qed.

(** The back buttons change none of the five fields, whether or not the
    page is drawn. *)
Lemma back_same_fields env w s :
  generated_code s <> None ->
  (step s = 3%Z /\ pressed w BtnBack = true) \/
  (step s = 4%Z /\ pressed w BtnBackToCode = true /\
   pressed w BtnRunAllTests = false) ->
  same_fields s (after env w s).
Proof.
  intros Hc H. destruct (image_loads env) eqn:Hi.
  - destruct H as [(H3 & Hb)|(H4 & Hb & Ht)].
    + rewrite (after_back env w s Hi H3 Hc Hb).
      apply (same_fields_after_sidebar env w s).
    + rewrite (after_back_to_code env w s Hi H4 Ht Hb).
      apply (same_fields_after_sidebar env w s).
  - rewrite after_page. cbv zeta. rewrite Hi.
    apply same_fields_after_sidebar.
Qed.

(** A click on one of the three buttons of the round trip changes none of
    the five fields, on whatever page it arrives. *)
Lemma round_trip_click env w s b :
  clicks b w ->
  b = BtnBackToCode \/ b = BtnTestSandbox \/ b = BtnDeployToProduction ->
  (3 <= step s <= 5)%Z ->
  same_fields s (after env w s).
Proof.
  intros C Hb Hs. unfold same_fields.
  pages env w s; try lia.
  - destruct (generated_code s0) eqn:Ec;
      [destruct (pressed w BtnBack), (pressed w BtnTestSandbox)|];
      fields; repeat apply conj; congruence.
  - rewrite (C BtnRunAllTests).
    destruct Hb as [->|[->| ->]]; cbn [Button_eqb];
      destruct (pressed w BtnBackToCode),
               (sandbox_passed s0 && pressed w BtnDeployToProduction);
      fields; repeat apply conj; congruence.
  - rewrite (C BtnDeploy).
    destruct Hb as [->|[->| ->]]; cbn [Button_eqb andb];
      destruct (generated_code s0) eqn:Ec; repeat apply conj; congruence.
  - repeat apply conj; congruence.
Qed.

Lemma round_trip_step env w s b :
  clicks b w ->
  b = BtnBackToCode \/ b = BtnTestSandbox \/ b = BtnDeployToProduction ->
  (3 <= step s <= 5)%Z ->
  (3 <= step (after env w s) <= 5)%Z.
Proof.
  intros C Hb Hs.
  pages env w s; try lia.
  - rewrite (C BtnBack).
    destruct Hb as [->|[->| ->]]; cbn [Button_eqb];
      destruct (generated_code s0) eqn:Ec; try destruct (pressed w BtnTestSandbox);
      fields; lia.
  - destruct (pressed w BtnRunAllTests), (pressed w BtnBackToCode),
             (sandbox_passed s0) eqn:Ep, (pressed w BtnDeployToProduction);
      fields; rewrite ?Ep; cbn [andb]; fields; lia.
  - rewrite (C BtnDeploy).
    destruct Hb as [->|[->| ->]]; cbn [Button_eqb andb];
      destruct (generated_code s0) eqn:Ec; lia.
Qed.

(** C10. In a reachable session, "Back" on the review page and "Back to
    Code" on the sandbox page change none of [generated_code],
    [sandbox_passed], [ai_insights], [api_doc_url], [auth_method], and
    where the page is drawn they set [step] to 1 and to 3; a set
    [sandbox_passed] survives every run but the reset; and from the sandbox
    page with the flag set, going back to the code, forward to the sandbox
    and pressing "Deploy to Production", with no test run in between,
    keeps the five fields and, the pages being drawn, reaches step 5. *)
Theorem back_navigation_keeps_fields :
  forall env w s,
    reachable s ->
    (step s = 3%Z -> pressed w BtnBack = true ->
     same_fields s (after env w s) /\
     (image_loads env = true -> step (after env w s) = 1%Z)) /\
    (step s = 4%Z -> pressed w BtnBackToCode = true ->
     pressed w BtnRunAllTests = false ->
     same_fields s (after env w s) /\
     (image_loads env = true -> step (after env w s) = 3%Z)) /\
    (sandbox_passed s = true -> is_reset w s = false ->
     sandbox_passed (after env w s) = true) /\
    (step s = 4%Z -> sandbox_passed s = true ->
     forall e1 e2 e3 w1 w2 w3,
       clicks BtnBackToCode w1 ->
       clicks BtnTestSandbox w2 ->
       clicks BtnDeployToProduction w3 ->
       let s' := after e3 w3 (after e2 w2 (after e1 w1 s)) in
       same_fields s s' /\
       (image_loads e1 = true -> image_loads e2 = true ->
        image_loads e3 = true -> step s' = 5%Z)).
Proof.
  intros env w s Hr. repeat apply conj.
  - intros H3 Hb.
    pose proof (reachable_code s Hr ltac:(lia)) as Hc.
    split; [apply back_same_fields; auto|].
    intros Hi. rewrite (after_back env w s Hi H3 Hc Hb). reflexivity.
  - intros H4 Hb Ht.
    pose proof (reachable_code s Hr ltac:(lia)) as Hc.
    split; [apply back_same_fields; auto|].
    intros Hi. rewrite (after_back_to_code env w s Hi H4 Ht Hb). reflexivity.
  - apply sandbox_passed_kept.
  - intros H4 Hp e1 e2 e3 w1 w2 w3 C1 C2 C3. cbv zeta. split.
    + assert (S1 : (3 <= step s <= 5)%Z) by lia.
      pose proof (round_trip_step e1 w1 s _ C1 (or_introl eq_refl) S1) as S2.
      pose proof (round_trip_step e2 w2 _ _ C2
                    (or_intror (or_introl eq_refl)) S2) as S3.
      eapply same_fields_trans;
        [apply (round_trip_click e1 w1 s _ C1 (or_introl eq_refl) S1)|].
      eapply same_fields_trans;
        [apply (round_trip_click e2 w2 _ _ C2
                  (or_intror (or_introl eq_refl)) S2)|].
      apply (round_trip_click e3 w3 _ _ C3
               (or_intror (or_intror eq_refl)) S3).
    + intros I1 I2 I3.
      pose proof (reachable_code s Hr ltac:(lia)) as Hc.
      destruct (same_fields_after_sidebar e1 w1 s)
        as (Hg1 & Hp1 & Hi1 & Hu1 & Ha1).
      rewrite (after_back_to_code e1 w1 s I1 H4 (C1 BtnRunAllTests)
                 (C1 BtnBackToCode)).
      set (s1 := set_step 3 (after_sidebar e1 w1 s)).
      assert (Hc1 : generated_code s1 <> None) by (simpl; congruence).
      rewrite (after_test_in_sandbox e2 w2 s1 I2 eq_refl Hc1 (C2 BtnBack)
                 (C2 BtnTestSandbox)).
      destruct (same_fields_after_sidebar e2 w2 s1)
        as (Hg2 & Hp2 & Hi2 & Hu2 & Ha2).
      set (s2 := set_step 4 (after_sidebar e2 w2 s1)).
      assert (Hp2' : sandbox_passed s2 = true)
        by (simpl; simpl in Hp2; congruence).
      rewrite (after_deploy_to_production e3 w3 s2 I3 eq_refl Hp2'
                 (C3 BtnBackToCode) (C3 BtnDeployToProduction)).
      reflexivity.
Qed.

Lemma back_navigation_keeps_fields_witness :
  step (after env_offline (click BtnBackToCode) tested) = 3%Z /\
  sandbox_passed (after env_offline (click BtnBackToCode) tested) = true /\
  step (after env_offline (click BtnDeployToProduction)
          (after env_offline (click BtnTestSandbox)
             (after env_offline (click BtnBackToCode) tested))) = 5%Z.
Proof.
  pose proof (back_navigation_keeps_fields env_offline (click BtnBackToCode)
                tested reachable_tested) as (_ & H4 & Hk & Hround).
  assert (E4 : step tested = 4%Z) by (vm_compute; reflexivity).
  assert (Ep : sandbox_passed tested = true) by (vm_compute; reflexivity).
  split; [apply (proj2 (H4 E4 eq_refl eq_refl)); reflexivity|].
  split.
  - apply (Hk Ep). unfold is_reset. rewrite E4. reflexivity.
  - apply (Hround E4 Ep env_offline env_offline env_offline
             (click BtnBackToCode) (click BtnTestSandbox)
             (click BtnDeployToProduction));
      try (intros b; reflexivity); reflexivity.
Defined.

(** ** Generation *)

Lemma demo_code_length : Z.of_nat (String.length demo_code) = 12934%Z.
Proof. vm_compute. reflexivity. Qed.

Lemma demo_code_nonempty : demo_code <> EmptyString.
Proof.
  intros H. pose proof demo_code_length as L. rewrite H in L. discriminate.
Qed.

(** C2 as stated fails: with a secrets file that holds a key and a
    service that answers with the empty text, the orchestrator returns the
    empty text. *)
Lemma empty_reply_counterexample :
  secrets (env_answering EmptyString) = SecretsFile (Some "sk-test") /\
  no_credential (env_answering EmptyString) initial = false /\
  outcome (generate_integration_code (env_answering EmptyString)
             default_url "OAuth 2.0" "Python" initial) = inl EmptyString /\
  ~ returns_nonempty_code (env_answering EmptyString) initial
      default_url "OAuth 2.0".
Proof.
  split; [reflexivity|]. split; [reflexivity|].
  assert (H : outcome (generate_integration_code (env_answering EmptyString)
                         default_url "OAuth 2.0" "Python" initial)
              = inl EmptyString).
  { rewrite generate_integration_code_eq. reflexivity. }
  split; [exact H|].
  intros (code & Hc & Hne). rewrite H in Hc. apply Hne. congruence.
Qed.

(** C2, amended. Where [st.secrets] can be read, the orchestrator never
    raises and never asks for a rerun: it always returns a text.  Without
    credential, and when the call to the service raises, the text is the
    fallback sample, which is not empty; when the service answers, the text
    is the answer as it came, empty or not. *)
Theorem generate_never_raises :
  forall env doc_url auth language s,
    secrets env <> NoSecretsFile ->
    exists code,
      outcome (generate_integration_code env doc_url auth language s)
      = inl code /\
      (no_credential env s = true -> code = demo_code) /\
      (forall e,
          no_credential env s = false ->
          messages_create env (api_key_of env s)
                          (build_prompt doc_url auth language) = Failure e ->
          code = demo_code) /\
      (forall t,
          no_credential env s = false ->
          messages_create env (api_key_of env s)
                          (build_prompt doc_url auth language) = Text t ->
          code = t) /\
      demo_code <> EmptyString.
Proof.
  intros env doc_url auth language s Hn.
  rewrite generate_integration_code_eq.
  destruct (secrets env) as [|k]; [congruence|].
  destruct (no_credential env s).
  - exists demo_code. split; [reflexivity|].
    split; [reflexivity|]. split; [discriminate|]. split; [discriminate|].
    exact demo_code_nonempty.
  - destruct (messages_create env (api_key_of env s)
                (build_prompt doc_url auth language)) as [t|e].
    + exists t. split; [reflexivity|]. split; [discriminate|].
      split; [discriminate|]. split; [congruence|]. exact demo_code_nonempty.
    + exists demo_code. split; [reflexivity|]. split; [discriminate|].
      split; [reflexivity|]. split; [discriminate|]. exact demo_code_nonempty.
Qed.

Lemma generate_never_raises_witness :
  outcome (generate_integration_code env_failing default_url "OAuth 2.0"
             "Python" initial) = inl demo_code.
Proof.
  destruct (generate_never_raises env_failing default_url "OAuth 2.0"
              "Python" initial ltac:(discriminate))
    as (code & Ho & _ & Hf & _).
  rewrite Ho. f_equal. apply (Hf "overloaded"); reflexivity.
Defined.

(** C8. Without credential the fallback is not always reached.  The test
    for the key in [st.secrets] (source line 97) stands before the [try]
    and raises when there is no secrets file: then the orchestrator
    returns no text, stores no insights and shows nothing.  With a secrets
    file that lacks the key it returns the one fallback text, the same for
    every URL and authentication method, and sets [ai_insights] to the
    four fixed lines, nothing else. *)
Theorem no_credential_without_secrets_file :
  forall env s doc_url auth language,
    no_credential env s = true ->
    (secrets env = NoSecretsFile ->
     generate_integration_code env doc_url auth language s
     = (inr (Raised secrets_error), s, [])) /\
    (secrets env <> NoSecretsFile ->
     forall doc_url' auth',
       outcome (generate_integration_code env doc_url auth language s)
       = inl demo_code /\
       generate_integration_code env doc_url auth language s
       = generate_integration_code env doc_url' auth' language s /\
       state_of (generate_integration_code env doc_url auth language s)
       = set_ai_insights demo_insights s /\
       ai_insights
         (state_of (generate_integration_code env doc_url auth language s))
       = [ "• Detected OAuth 2.0 with refresh token flow"
         ; "• Found 12 relevant endpoints for user data"
         ; "• Pagination uses cursor-based method"
         ; "• Rate limit: 500 requests/minute" ]).
Proof.
  intros env s doc_url auth language H. split.
  - intros Hn. rewrite generate_integration_code_eq, Hn. reflexivity.
  - intros Hn doc_url' auth'.
    rewrite !generate_integration_code_eq, H.
    destruct (secrets env) as [|k]; [congruence|].
    split; [reflexivity|]. split; [reflexivity|]. split; reflexivity.
Qed.

Lemma no_credential_without_secrets_file_witness :
  no_credential env_no_secrets initial = true /\
  outcome (generate_integration_code env_no_secrets default_url "OAuth 2.0"
             "Python" initial) = inr (Raised secrets_error) /\
  ai_insights (state_of (generate_integration_code env_no_secrets
                           default_url "OAuth 2.0" "Python" initial)) = [] /\
  outcome (generate_integration_code env_offline default_url "OAuth 2.0"
             "Python" initial) = inl demo_code.
Proof.
  pose proof (no_credential_without_secrets_file env_no_secrets initial
                default_url "OAuth 2.0" "Python" eq_refl) as (Hr & _).
  pose proof (no_credential_without_secrets_file env_offline initial
                default_url "OAuth 2.0" "Python" eq_refl) as (_ & Hf).
  split; [reflexivity|].
  rewrite (Hr eq_refl).
  split; [reflexivity|]. split; [reflexivity|].
  apply (Hf ltac:(discriminate) default_url "API Key").
Defined.

(** ** Quality analysis *)

(** C3 as stated fails: the fallback sample says "never hardcode!" in a
    comment, so its security check reports a warning and the score is
    displayed as 8.3. *)
Lemma demo_security_warning_counterexample :
  In ("security", "⚠️ Warning") (fst (analyze_code_quality demo_code)) /\
  format_1f (snd (analyze_code_quality demo_code)) = "8.3" /\
  ~ all_six_passed demo_code.
Proof.
  assert (Hs : format_1f (snd (analyze_code_quality demo_code)) = "8.3")
    by (vm_compute; reflexivity).
  split; [vm_compute; left; reflexivity|]. split; [exact Hs|].
  intros [_ H]. rewrite Hs in H. discriminate.
Qed.

(** C3, amended. On the fallback sample the analyser reports Passed for
    error handling, pagination, rate limiting, logging and best practices,
    and Warning for security, because the sample contains "hardcode"; the
    score is 5/6 of 10, displayed as 8.3. *)
Theorem demo_code_quality :
  analyze_code_quality demo_code =
  ( [ ("security", "⚠️ Warning")
    ; ("error_handling", "✓ Passed")
    ; ("pagination", "✓ Passed")
    ; ("rate_limiting", "✓ Passed")
    ; ("logging", "✓ Passed")
    ; ("best_practices", "✓ Passed") ],
    score_of 5 6 ) /\
  contains "os.environ" demo_code = true /\
  contains "hardcode" (lower demo_code) = true /\
  format_1f (score_of 5 6) = "8.3" /\
  close_to (score_of 5 6) 50 6 = true.
Proof.
  split; [vm_compute; reflexivity|].
  split; [vm_compute; reflexivity|].
  split; [vm_compute; reflexivity|].
  split; vm_compute; reflexivity.
Qed.

Lemma passed_count_checks code :
  passed_count (quality_metrics code) = count_true (checks code).
Proof.
  unfold quality_metrics, checks.
  destruct (check_security code), (check_error_handling code),
           (check_pagination code), (check_rate_limiting code),
           (check_logging code), (check_best_practices code);
    reflexivity.
Qed.

Lemma count_true_checks code : (count_true (checks code) <= 6)%nat.
Proof.
  unfold count_true.
  etransitivity; [apply filter_length_le|]. simpl. lia.
Qed.

(** The seven values of the score. *)
Lemma score_of_six k :
  (k <= 6)%nat ->
  PrimFloat.leb (float_of_nat 0) (score_of k 6) = true /\
  PrimFloat.leb (score_of k 6) (float_of_nat 10) = true /\
  close_to (score_of k 6) (Z.of_nat k * 10) 6 = true /\
  format_1f (score_of k 6) = show_tenths (exact_tenths k) /\
  In (format_1f (score_of k 6)) displayed_scores.
Proof.
  intros H.
  do 7 (destruct k as [|k];
        [vm_compute; repeat (split; [reflexivity|]); tauto|]).
  lia.
Qed.

(** C7. For every text, the score is [(passed / 6) * 10], computed in
    binary64, for the number [passed] of checks that hold, so it is one of
    seven values: it lies between 0 and 10, it is within [2^-50] of the
    fraction [passed * 10 / 6], and displayed to one decimal it is that
    fraction rounded to one decimal, one of 0.0, 1.7, 3.3, 5.0, 6.7, 8.3,
    10.0. *)
Theorem quality_score_bounds :
  forall code,
    let metrics := fst (analyze_code_quality code) in
    let score := snd (analyze_code_quality code) in
    let passed := passed_count metrics in
    passed = count_true (checks code) /\
    (passed <= 6)%nat /\
    score = score_of passed 6 /\
    PrimFloat.leb (float_of_nat 0) score = true /\
    PrimFloat.leb score (float_of_nat 10) = true /\
    close_to score (Z.of_nat passed * 10) 6 = true /\
    format_1f score = show_tenths (exact_tenths passed) /\
    In (format_1f score) displayed_scores.
Proof.
  intros code. cbv zeta. unfold analyze_code_quality.
  cbn [fst snd].
  assert (L : List.length (quality_metrics code) = 6%nat) by reflexivity.
  rewrite L, passed_count_checks.
  pose proof (count_true_checks code) as Hle.
  split; [reflexivity|]. split; [exact Hle|]. split; [reflexivity|].
  apply score_of_six, Hle.
Qed.

(** ** Insight extraction *)

Arguments str_of_nat : simpl never.

Lemma In_optional x b line : In x (optional b line) <-> b = true /\ line = x.
Proof.
  destruct b; simpl.
  - split; [intros [H|H]; [auto | contradiction] | intros [_ H]; auto].
  - split; [contradiction | intros [H _]; discriminate].
Qed.

(** The lines come out in the order of the six tests. *)
Lemma extract_insights_eq code api_url :
  extract_insights code api_url =
  (optional (has_oauth code) insight_oauth
   ++ optional (has_cursor code) insight_cursor
   ++ optional (has_offset code) insight_offset
   ++ optional (has_rate_limit code) insight_rate_limit
   ++ optional (has_retry code) insight_retry
   ++ optional (0 <? endpoint_count code)%nat
               (insight_methods (endpoint_count code)))%list.
Proof.
  unfold extract_insights, append_if, optional.
  destruct (has_oauth code), (has_cursor code), (has_offset code),
           (has_rate_limit code), (has_retry code),
           (0 <? endpoint_count code)%nat; reflexivity.
Qed.

Ltac lines_differ :=
  unfold insight_oauth, insight_cursor, insight_offset, insight_rate_limit,
    insight_retry, insight_methods in *; simpl in *;
  try discriminate; try congruence.

Ltac line_cases :=
  rewrite extract_insights_eq; repeat rewrite in_app_iff;
  repeat rewrite In_optional;
  split;
  [ intros H; repeat (destruct H as [H|H]);
    destruct H as [Hb He]; first [exact Hb | exfalso; lines_differ]
  | intros Hb; tauto ].

(** C6 as stated fails in both directions: the text OAUTH contains the
    marker oauth ignoring case and gets no line, and the text RateLimit
    gets the rate-limit line without containing rate_limit in any case. *)
Lemma upper_case_oauth_counterexample :
  occurs_ignoring_case "oauth" "OAUTH" = true /\
  extract_insights "OAUTH" default_url = [] /\
  ~ line_iff_marker "OAUTH" default_url /\
  occurs_ignoring_case "rate_limit" "RateLimit" = false /\
  extract_insights "RateLimit" default_url = [insight_rate_limit] /\
  ~ line_iff_marker "RateLimit" default_url.
Proof.
  split; [reflexivity|]. split; [reflexivity|].
  split.
  { intros [[_ H] _]. apply (H eq_refl). }
  split; [reflexivity|]. split; [reflexivity|].
  intros (_ & _ & _ & [H _] & _).
  assert (F : true = false); [|discriminate F].
  symmetry. apply H. left. reflexivity.
Qed.

(** C6, amended. For every text the emitted lines are, in this order, the
    lines of the tests oauth, cursor, offset, rate limit, retry and method
    count that hold.  The tests for cursor, offset and retry are substring
    searches ignoring case; the OAuth line is emitted exactly when the text
    contains OAuth or oauth in one of these two spellings; the rate-limit
    line exactly when the text contains rate_limit ignoring case or
    RateLimit as spelled; the count line exactly when the count of
    [def get_] and [def list_] is positive. *)
Theorem extract_insights_order :
  forall code api_url,
    let out := extract_insights code api_url in
    let n := endpoint_count code in
    out =
    (optional (has_oauth code) insight_oauth
     ++ optional (has_cursor code) insight_cursor
     ++ optional (has_offset code) insight_offset
     ++ optional (has_rate_limit code) insight_rate_limit
     ++ optional (has_retry code) insight_retry
     ++ optional (0 <? n)%nat (insight_methods n))%list /\
    (In insight_oauth out
     <-> contains "OAuth" code = true \/ contains "oauth" code = true) /\
    (In insight_cursor out <-> occurs_ignoring_case "cursor" code = true) /\
    (In insight_offset out <-> occurs_ignoring_case "offset" code = true) /\
    (In insight_rate_limit out
     <-> occurs_ignoring_case "rate_limit" code = true
         \/ contains "RateLimit" code = true) /\
    (In insight_retry out <-> occurs_ignoring_case "retry" code = true) /\
    (In (insight_methods n) out <-> (0 < n)%nat).
Proof.
  intros code api_url. cbv zeta.
  split; [apply extract_insights_eq|].
  split.
  { rewrite <- orb_true_iff. change (In insight_oauth
      (extract_insights code api_url) <-> has_oauth code = true).
    line_cases. }
  split.
  { change (In insight_cursor (extract_insights code api_url)
            <-> has_cursor code = true). line_cases. }
  split.
  { change (In insight_offset (extract_insights code api_url)
            <-> has_offset code = true). line_cases. }
  split.
  { rewrite <- orb_true_iff. change (In insight_rate_limit
      (extract_insights code api_url) <-> has_rate_limit code = true).
    line_cases. }
  split.
  { change (In insight_retry (extract_insights code api_url)
            <-> has_retry code = true). line_cases. }
  rewrite <- Nat.ltb_lt. line_cases.
Qed.

(** * Further properties *)

(** ** Text search *)

Lemma prefix_iff sub s :
  String.prefix sub s = true <-> exists b, s = sub ++ b.
Proof.
  revert s. induction sub as [|c sub IH]; intros s; simpl.
  - split; [intros _; exists s; reflexivity | destruct s; reflexivity].
  - destruct s as [|d s]; simpl.
    + split; [discriminate | intros [b H]; discriminate].
    + destruct (ascii_dec c d) as [->|N].
      * rewrite IH. split; intros [b H]; exists b; congruence.
      * split; [discriminate | intros [b H]; congruence].
Qed.

Lemma str_app_assoc a b c : (a ++ b) ++ c = a ++ b ++ c.
Proof. induction a as [|x a IH]; simpl; congruence. Qed.

Lemma str_app_length a b :
  String.length (a ++ b) = (String.length a + String.length b)%nat.
Proof. induction a as [|x a IH]; simpl; congruence. Qed.

Lemma contains_here sub s : String.prefix sub s = true -> contains sub s = true.
Proof. intros H. destruct s; simpl in *; rewrite H; reflexivity. Qed.

Lemma contains_later sub c s :
  contains sub s = true -> contains sub (String c s) = true.
Proof.
  intros H. cbn [contains].
  destruct (String.prefix sub (String c s)); [reflexivity | exact H].
Qed.

Lemma contains_app_r sub a b :
  contains sub b = true -> contains sub (a ++ b) = true.
Proof.
  intros H. induction a as [|c a IH]; [exact H|].
  simpl append. apply contains_later, IH.
Qed.

Lemma contains_app_l sub a b :
  contains sub a = true -> contains sub (a ++ b) = true.
Proof.
  induction a as [|c a IH]; cbn [contains append].
  - destruct (String.prefix sub EmptyString) eqn:E; [|discriminate].
    intros _. apply contains_here.
    destruct sub; [destruct b; reflexivity | discriminate].
  - destruct (String.prefix sub (String c a)) eqn:E.
    + intros _.
      apply prefix_iff in E. destruct E as [r E].
      assert (P : String.prefix sub (String c (a ++ b)) = true).
      { apply prefix_iff. exists (r ++ b).
        change (String c (a ++ b)) with (String c a ++ b).
        rewrite E. apply str_app_assoc. }
      rewrite P. reflexivity.
    + intros H. destruct (String.prefix sub (String c (a ++ b)));
        [reflexivity | apply IH, H].
Qed.

Lemma contains_refl s : contains s s = true.
Proof.
  apply contains_here, prefix_iff. exists EmptyString.
  induction s as [|c s IH]; simpl; congruence.
Qed.

Lemma contains_split sub s :
  contains sub s = true -> exists a b, s = a ++ sub ++ b.
Proof.
  induction s as [|c s IH]; cbn [contains].
  - destruct (String.prefix sub EmptyString) eqn:E; [|discriminate].
    intros _. apply prefix_iff in E. destruct E as [b E].
    exists EmptyString, b. exact E.
  - destruct (String.prefix sub (String c s)) eqn:E.
    + intros _. apply prefix_iff in E. destruct E as [b E].
      exists EmptyString, b. exact E.
    + intros H. destruct (IH H) as (a & b & E').
      exists (String c a), b. simpl. congruence.
Qed.

Lemma contains_length sub s :
  contains sub s = true -> (String.length sub <= String.length s)%nat.
Proof.
  intros H. apply contains_split in H. destruct H as (a & b & ->).
  rewrite !str_app_length. lia.
Qed.

(** X9. [sub in s] holds exactly when [s] is some text, then [sub], then
    some text; so the test holds for the text itself, survives text added
    on either side, and needs a text at least as long as [sub]. *)
Theorem contains_iff_infix :
  forall sub s,
    (contains sub s = true <-> exists a b, s = a ++ sub ++ b) /\
    (contains sub s = true ->
     (String.length sub <= String.length s)%nat /\
     forall a b, contains sub (a ++ s ++ b) = true).
Proof.
  intros sub s. split; [split|].
  - apply contains_split.
  - intros (a & b & ->).
    apply contains_app_r, contains_app_l, contains_refl.
  - intros H. split; [apply contains_length, H|].
    intros a b. apply contains_app_r, contains_app_l, H.
Qed.

Lemma contains_iff_infix_witness :
  contains "cursor" ("next_" ++ "cursor" ++ " = None") = true.
Proof.
  apply (contains_iff_infix "cursor" ("next_" ++ "cursor" ++ " = None")).
  exists "next_", " = None". reflexivity.
Defined.

Lemma lower_length s : String.length (lower s) = String.length s.
Proof. induction s as [|c s IH]; simpl; congruence. Qed.

Lemma count_from_zero_iff sub s :
  sub <> EmptyString ->
  (0 < count_from sub 0 s)%nat <-> contains sub s = true.
Proof.
  intros N. induction s as [|c s IH].
  - simpl. destruct sub; [congruence|]. simpl. split; [lia | discriminate].
  - cbn [count_from contains].
    destruct (String.prefix sub (String c s)).
    + split; [reflexivity | lia].
    + exact IH.
Qed.

Lemma count_from_bound sub s :
  forall skip,
    (skip <= String.length s)%nat ->
    (count_from sub skip s * String.length sub + skip <= String.length s)%nat.
Proof.
  induction s as [|c s IH]; intros skip Hk; cbn [count_from String.length] in *.
  - lia.
  - destruct skip as [|k].
    + destruct (String.prefix sub (String c s)) eqn:E.
      * apply prefix_iff in E. destruct E as [r E].
        apply (f_equal String.length) in E.
        rewrite str_app_length in E. cbn [String.length] in E.
        destruct sub as [|d sub]; cbn [String.length] in *; [lia|].
        replace (S (String.length sub) - 1)%nat with (String.length sub)
          by lia.
        specialize (IH (String.length sub) ltac:(lia)). lia.
      * specialize (IH 0%nat ltac:(lia)). lia.
    + specialize (IH k ltac:(lia)). lia.
Qed.

(** X10. For a non-empty [sub], [s.count(sub)] is positive exactly when
    [sub in s], and the occurrences counted do not overlap: together they
    fit into [s]. *)
Theorem count_positive_iff_contains :
  forall sub s,
    sub <> EmptyString ->
    ((0 < count sub s)%nat <-> contains sub s = true) /\
    (count sub s * String.length sub <= String.length s)%nat.
Proof.
  intros sub s N. unfold count.
  destruct sub as [|c sub]; [congruence|]. split.
  - apply count_from_zero_iff. discriminate.
  - pose proof (count_from_bound (String c sub) s 0 ltac:(lia)). lia.
Qed.

Lemma count_positive_iff_contains_witness :
  (0 < count "def get_" "def get_users(): pass")%nat /\
  (count "aa" "aaaaa" * 2 <= 5)%nat.
Proof.
  split.
  - apply (count_positive_iff_contains "def get_" "def get_users(): pass");
      [discriminate | reflexivity].
  - apply (count_positive_iff_contains "aa" "aaaaa"). discriminate.
Defined.

(** X11. The method-count line is emitted exactly for the texts that
    contain [def get_] or [def list_]. *)
Theorem method_line_iff_definition :
  forall code api_url,
    In (insight_methods (endpoint_count code))
       (extract_insights code api_url)
    <-> contains "def get_" code = true \/ contains "def list_" code = true.
Proof.
  intros code api_url.
  assert (H : In (insight_methods (endpoint_count code))
                 (extract_insights code api_url)
              <-> (0 <? endpoint_count code)%nat = true) by line_cases.
  rewrite H, Nat.ltb_lt. unfold endpoint_count.
  assert (G : (0 < count "def get_" code)%nat
              <-> contains "def get_" code = true)
    by (apply count_from_zero_iff; discriminate).
  assert (L : (0 < count "def list_" code)%nat
              <-> contains "def list_" code = true)
    by (apply count_from_zero_iff; discriminate).
  rewrite <- G, <- L. lia.
Qed.

(** ** The workflow, run by run *)

Ltac press w :=
  repeat match goal with
         | |- context [pressed w ?b] => destruct (pressed w b) eqn:?
         end.

(** X1. In every reachable session [step] is one of 1 to 5 and
    [auth_method] is one of the four methods of the configure page. *)
Theorem reachable_step_and_method :
  forall s,
    reachable s ->
    (1 <= step s <= 5)%Z /\ In (auth_method s) auth_methods.
Proof.
  induction 1 as [|env w s Hr [IHs IHa]].
  - split; [simpl; lia | left; reflexivity].
  - pages env w s.
    + configured w s0.
      assert (Ha : In (auth_method s1) auth_methods)
        by (destruct A7 as [A7|A7]; [congruence | exact A7]).
      destruct (pressed w BtnGenerate); fields; split; (lia || exact Ha).
    + split; (lia || congruence).
    + destruct (pressed w BtnReview); fields; split; (lia || congruence).
    + destruct (generated_code s0);
        [destruct (pressed w BtnBack), (pressed w BtnTestSandbox)|];
        fields; split; (lia || congruence).
    + destruct (pressed w BtnRunAllTests), (pressed w BtnBackToCode),
               (sandbox_passed s0) eqn:Ep, (pressed w BtnDeployToProduction);
        fields; rewrite ?Ep; cbn [andb]; fields;
        split; (lia || congruence).
    + destruct (generated_code s0);
        [destruct (pressed w BtnDeploy), (pressed w BtnStartNew)|];
        cbn [andb]; fields; split; (lia || congruence).
    + split; (lia || congruence).
    + split; (lia || congruence).
Qed.

Lemma reachable_step_and_method_witness :
  (1 <= step deployed <= 5)%Z /\ In (auth_method deployed) auth_methods.
Proof. exact (reachable_step_and_method deployed reachable_deployed). Defined.
(** X2. A run raises in four situations and in no other: the image of
    the sidebar does not load; the generate page finds no secrets file;
    the review page or the deploy page finds no code.  Otherwise it ends
    normally or in a rerun.  A reachable session has code from step 3 on,
    so its runs raise for the image and for the secrets file only. *)
Theorem main_raises_exactly :
  forall env w s,
    ((exists e, outcome (main env w s) = inr (Raised e)) <-> raising env s) /\
    (outcome (main env w s) = inl tt \/
     outcome (main env w s) = inr Rerun \/
     outcome (main env w s) = inr (Raised image_error) \/
     outcome (main env w s) = inr (Raised secrets_error) \/
     outcome (main env w s) = inr (Raised no_code_error) \/
     outcome (main env w s) = inr (Raised download_error)) /\
    (reachable s ->
     image_loads env = true ->
     (step s = 2%Z -> secrets env <> NoSecretsFile) ->
     forall e, outcome (main env w s) <> inr (Raised e)).
Proof.
  intros env w s.
  assert (H : (exists e, outcome (main env w s) = inr (Raised e))
              <-> raising env s).
  { unfold raising. pages env w s.
    - split; [intros [e He]; destruct (pressed w BtnGenerate); discriminate|].
      intros [R|[[R _]|[[R _]|[R _]]]]; (discriminate || lia).
    - split; [intros _; auto | intros _; eexists; reflexivity].
    - split; [intros [e He]; destruct (pressed w BtnReview); discriminate|].
      intros [R|[[_ R]|[[R _]|[R _]]]];
        (discriminate || lia || congruence).
    - rewrite <- F2.
      destruct (generated_code s0) eqn:Ec.
      + split; [intros [e He]; destruct (pressed w BtnBack),
                  (pressed w BtnTestSandbox); discriminate|].
        intros [R|[[R _]|[[_ R]|[R _]]]];
          (discriminate || lia || congruence).
      + split; [intros _; auto | intros _; eexists; reflexivity].
    - split.
      + intros [e He].
        destruct (pressed w BtnRunAllTests), (pressed w BtnBackToCode),
                 (sandbox_passed s0) eqn:Ep,
                 (pressed w BtnDeployToProduction);
          fields_in He; rewrite ?Ep in He; cbn [andb] in He; discriminate.
      + intros [R|[[R _]|[[R _]|[R _]]]]; (discriminate || lia).
    - rewrite <- F2.
      destruct (generated_code s0) eqn:Ec.
      + split; [intros [e He]; destruct (pressed w BtnDeploy),
                  (pressed w BtnStartNew); discriminate|].
        intros [R|[[R _]|[[R _]|[_ R]]]];
          (discriminate || lia || congruence).
      + split; [intros _; auto 6 | intros _; eexists; reflexivity].
    - split; [intros [e He]; discriminate|].
      intros [R|[[R _]|[[R _]|[R _]]]]; (discriminate || lia).
    - split; [intros _; auto | intros _; eexists; reflexivity]. }
  split; [exact H|]. split.
  - pages env w s.
    + destruct (pressed w BtnGenerate); auto.
    + auto 6.
    + destruct (pressed w BtnReview); auto.
    + destruct (generated_code s0);
        [destruct (pressed w BtnBack), (pressed w BtnTestSandbox)|];
        auto 8.
    + destruct (pressed w BtnRunAllTests), (pressed w BtnBackToCode),
               (sandbox_passed s0) eqn:Ep, (pressed w BtnDeployToProduction);
        fields; rewrite ?Ep; cbn [andb]; auto.
    + destruct (generated_code s0);
        [destruct (pressed w BtnDeploy), (pressed w BtnStartNew)|];
        cbn [andb]; auto 8.
    + auto.
    + auto.
  - intros Hr Hi Hsec e He.
    destruct (proj1 H (ex_intro _ e He)) as [R|[[R1 R2]|[[R1 R2]|[R1 R2]]]].
    + congruence.
    + exact (Hsec R1 R2).
    + apply (reachable_code s Hr); [lia | exact R2].
    + apply (reachable_code s Hr); [lia | exact R2].
Qed.

Lemma main_raises_exactly_witness :
  outcome (main env_offline (click BtnBack) at_review)
  <> inr (Raised no_code_error).
Proof.
  refine (proj2 (proj2 (main_raises_exactly env_offline (click BtnBack)
                          at_review)) reachable_at_review eq_refl _
            no_code_error).
  intros _. discriminate.
Defined.

(** X3. A run asks for a rerun exactly when it changes [step]: every
    handler that moves to another page calls [st.rerun()], and nothing
    else does. *)
Theorem rerun_iff_step_changes :
  forall env w s,
    outcome (main env w s) = inr Rerun <-> step (after env w s) <> step s.
Proof.
  intros env w s. pages env w s.
  - configured w s0.
    destruct (pressed w BtnGenerate); fields;
      (split; [intros; lia | intros; (reflexivity || (exfalso; lia))])
      || (split; [discriminate | intros; lia]).
  - split; [discriminate | intros; lia].
  - destruct (pressed w BtnReview); fields;
      (split; [intros; lia | intros; (reflexivity || (exfalso; lia))])
      || (split; [discriminate | intros; lia]).
  - destruct (generated_code s0);
      [destruct (pressed w BtnBack), (pressed w BtnTestSandbox)|]; fields;
      (split; [intros; lia | intros; (reflexivity || (exfalso; lia))])
      || (split; [discriminate | intros; lia]).
  - destruct (pressed w BtnRunAllTests), (pressed w BtnBackToCode),
             (sandbox_passed s0) eqn:Ep, (pressed w BtnDeployToProduction);
      fields; rewrite ?Ep; cbn [andb]; fields;
      (split; [intros; lia | intros; (reflexivity || (exfalso; lia))])
      || (split; [discriminate | intros; lia]).
  - destruct (generated_code s0);
      [destruct (pressed w BtnDeploy), (pressed w BtnStartNew)|];
      cbn [andb]; fields;
      (split; [intros; lia | intros; (reflexivity || (exfalso; lia))])
      || (split; [discriminate | intros; lia]).
  - split; [discriminate | intros; lia].
  - split; [discriminate | intros; lia].
Qed.

(** X4. Where the page is drawn, a run of the generate page, whichever
    button reports a press, calls the orchestrator on the stored URL and
    method.  When [st.secrets] can be read it stores the text and the
    insights of the orchestrator and leaves [api_doc_url], [auth_method]
    and [sandbox_passed] as they were, so a flag set by an earlier test
    run stays set for the new code.  Without a secrets file the run raises
    and stores nothing. *)
Theorem generate_page_regenerates :
  forall env w s,
    step s = 2%Z ->
    image_loads env = true ->
    let s0 := after_sidebar env w s in
    let s' := after env w s in
    (secrets env <> NoSecretsFile ->
     outcome (generate_integration_code env (api_doc_url s) (auth_method s)
                "Python" s0) = inl (fst (generated env s0)) /\
     outcome (main env w s) =
     (if pressed w BtnReview then inr Rerun else inl tt) /\
     generated_code s' = Some (fst (generated env s0)) /\
     ai_insights s' = snd (generated env s0) /\
     api_doc_url s' = api_doc_url s /\
     auth_method s' = auth_method s /\
     sandbox_passed s' = sandbox_passed s /\
     step s' = (if pressed w BtnReview then 3 else 2)%Z) /\
    (secrets env = NoSecretsFile ->
     outcome (main env w s) = inr (Raised secrets_error) /\
     s' = s0).
Proof.
  intros env w s H2 Hi. cbv zeta.
  destruct (after_sidebar_fields env w s) as (G1 & G2 & G3 & G4 & G5 & G6).
  rewrite outcome_page, after_page. cbv zeta.
  rewrite Hi, H2. cbn [Z.eqb Pos.eqb].
  destruct (page_generate env w (after_sidebar env w s))
    as [(Hsec & Ho & Hs)|(Hsec & Ho & Hs)]; rewrite Ho, Hs.
  - split; [congruence | auto].
  - split; [|congruence]. intros _. split.
    { rewrite <- G3, <- G4. apply generated_eq. exact Hsec. }
    cbv zeta.
    destruct (pressed w BtnReview); fields; rewrite ?step_after_sidebar;
      repeat apply conj; auto.
Qed.

Lemma generate_page_regenerates_witness :
  generated_code (after (env_answering "import os") idle (set_step 2 initial))
  = Some "import os".
Proof.
  pose proof (generate_page_regenerates (env_answering "import os") idle
                (set_step 2 initial) eq_refl eq_refl) as H.
  cbv zeta in H. apply (proj1 H). discriminate.
Defined.

Lemma extract_insights_any_url code u u' :
  extract_insights code u = extract_insights code u'.
Proof. reflexivity. Qed.

Lemma insights_match_fields s s' :
  generated_code s' = generated_code s ->
  ai_insights s' = ai_insights s ->
  insights_match s -> insights_match s'.
Proof.
  unfold insights_match. intros Hc Hi H code Hs'.
  rewrite Hc in Hs'. rewrite Hi.
  destruct (H code Hs') as [D|E]; [left; exact D | right].
  rewrite E. apply extract_insights_any_url.
Qed.

Lemma insights_match_generated env s :
  insights_match (set_generated_code (Some (fst (generated env s)))
                    (set_ai_insights (snd (generated env s)) s)).
Proof.
  unfold insights_match, generated. fields. intros code Hc.
  destruct (no_credential env s).
  - left. cbn [fst snd] in *. split; congruence.
  - destruct (messages_create env (api_key_of env s)
                (build_prompt (api_doc_url s) (auth_method s) "Python"));
      cbn [fst snd] in *.
    + right. congruence.
    + left. split; congruence.
Qed.

(** X5. In every reachable session the insight list belongs to the stored
    code: next to the fallback sample it is the fixed fallback list, and
    otherwise it is what the extractor finds in the stored code.  Code and
    insights are replaced together. *)
Theorem reachable_insights_match :
  forall s, reachable s -> insights_match s.
Proof.
  induction 1 as [|env w s Hr IH].
  - intros code H. discriminate.
  - assert (IH0 : insights_match (after_sidebar env w s)).
    { destruct (after_sidebar_fields env w s) as (_ & G2 & _ & _ & _ & G6).
      exact (insights_match_fields _ _ G2 G6 IH). }
    clear IH. revert IH0. pages env w s; intros IH0.
    + configured w s0.
      destruct (pressed w BtnGenerate);
        apply (insights_match_fields s0); fields; auto.
    + exact IH0.
    + destruct (pressed w BtnReview);
        [apply (insights_match_fields
                  (set_generated_code (Some (fst (generated env s0)))
                     (set_ai_insights (snd (generated env s0)) s0)));
         [reflexivity | reflexivity |]|];
        apply insights_match_generated.
    + destruct (generated_code s0) eqn:Ec;
        [destruct (pressed w BtnBack), (pressed w BtnTestSandbox)|];
        try exact IH0; apply (insights_match_fields s0); auto.
    + destruct (pressed w BtnRunAllTests), (pressed w BtnBackToCode),
               (sandbox_passed s0) eqn:Ep, (pressed w BtnDeployToProduction);
        fields; rewrite ?Ep; cbn [andb];
        try exact IH0; apply (insights_match_fields s0); auto.
    + destruct (generated_code s0) eqn:Ec;
        [destruct (pressed w BtnDeploy), (pressed w BtnStartNew)|];
        cbn [andb]; try exact IH0.
      intros code H. discriminate.
    + exact IH0.
    + exact IH0.
Qed.

Lemma reachable_insights_match_witness :
  (demo_code = demo_code /\ ai_insights deployed = demo_insights) \/
  ai_insights deployed = extract_insights demo_code (api_doc_url deployed).
Proof.
  apply (reachable_insights_match deployed reachable_deployed demo_code).
  vm_compute. reflexivity.
Defined.

(** X6. No page touches the stored API key: after a run it is the key
    typed into the sidebar field, if there is one and the run got as far
    as the field, and the key stored before otherwise.  A click on "Start
    New Integration" keeps it too, and a session that holds a key goes on
    holding one. *)
Theorem api_key_survives :
  forall env w s,
    anthropic_key (after env w s) = anthropic_key (after_sidebar env w s) /\
    anthropic_key (after env w s) =
    (if image_loads env && truthy (key_field w) then Some (key_field w)
     else anthropic_key s) /\
    (no_session_key s = false -> no_session_key (after env w s) = false).
Proof.
  intros env w s.
  assert (K : anthropic_key (after env w s)
              = anthropic_key (after_sidebar env w s)).
  { pages env w s.
    - configured w s0. destruct (pressed w BtnGenerate); fields; exact A6.
    - reflexivity.
    - destruct (pressed w BtnReview); reflexivity.
    - destruct (generated_code s0);
        [destruct (pressed w BtnBack), (pressed w BtnTestSandbox)|];
        reflexivity.
    - destruct (pressed w BtnRunAllTests), (pressed w BtnBackToCode),
               (sandbox_passed s0) eqn:Ep, (pressed w BtnDeployToProduction);
        fields; rewrite ?Ep; reflexivity.
    - destruct (generated_code s0);
        [destruct (pressed w BtnDeploy), (pressed w BtnStartNew)|];
        reflexivity.
    - reflexivity.
    - reflexivity. }
  assert (K' : anthropic_key (after env w s)
               = if image_loads env && truthy (key_field w)
                 then Some (key_field w) else anthropic_key s).
  { rewrite K. unfold after_sidebar.
    destruct (image_loads env && truthy (key_field w)); reflexivity. }
  split; [exact K|]. split; [exact K'|].
  unfold no_session_key. rewrite K'.
  destruct (image_loads env); cbn [andb]; [|tauto].
  destruct (truthy (key_field w)) eqn:T; [|tauto].
  intros _. rewrite T. reflexivity.
Qed.

Lemma api_key_survives_witness :
  no_session_key
    (after env_offline (click BtnStartNew)
       (set_anthropic_key (Some "sk-typed") deployed)) = false.
Proof.
  apply (api_key_survives env_offline (click BtnStartNew)
           (set_anthropic_key (Some "sk-typed") deployed)).
  reflexivity.
Defined.

(** X7. "Start New Integration" is drawn inside the branch of the deploy
    button, so it takes both buttons reporting a press in one run.  When at
    most one button reports a press per run, the reset never happens: a
    run on the deploy page changes no workflow field, and no sequence of
    such runs leaves step 5. *)
Theorem one_button_never_resets :
  forall env w ws s,
    step s = 5%Z ->
    one_button w -> Forall one_button ws ->
    after env w s = after_sidebar env w s /\
    step (runs env ws s) = 5%Z /\
    generated_code (runs env ws s) = generated_code s /\
    sandbox_passed (runs env ws s) = sandbox_passed s.
Proof.
  intros env w ws s H5 Hw Hws.
  assert (One : forall w s, step s = 5%Z -> one_button w ->
                            after env w s = after_sidebar env w s).
  { clear. intros w s H5 Hw. rewrite after_page. cbv zeta. rewrite H5.
    cbn [Z.eqb Pos.eqb]. rewrite state_deploy.
    pose proof (one_button_no_reset w s Hw) as R. unfold is_reset in R.
    rewrite H5 in R. cbn [Z.eqb Pos.eqb andb] in R. rewrite R.
    destruct (image_loads env),
             (generated_code (after_sidebar env w s)); reflexivity. }
  split; [apply One; assumption|].
  clear w Hw. revert s H5.
  induction Hws as [|w ws Hw Hws IH]; intros s H5; [auto|].
  cbn [runs fold_left]. change (fold_left _ ws ?x) with (runs env ws x).
  rewrite (One w s H5 Hw).
  destruct (after_sidebar_fields env w s) as (G1 & G2 & _ & _ & G5 & _).
  destruct (IH (after_sidebar env w s) ltac:(congruence)) as (I1 & I2 & I3).
  repeat apply conj; congruence.
Qed.

Lemma one_button_never_resets_witness :
  step (runs env_offline [click BtnDeploy; click BtnStartNew] deployed) = 5%Z.
Proof.
  assert (H5 : step deployed = 5%Z) by (vm_compute; reflexivity).
  apply (one_button_never_resets env_offline (click BtnDeploy)
           [click BtnDeploy; click BtnStartNew] deployed H5
           (click_one_button BtnDeploy)).
  repeat constructor; apply click_one_button.
Defined.

(** X8. The test run of the sandbox page is scripted: on step 4, where the
    page is drawn, whenever "Run All Tests" reports a press, the four
    tests are reported as passed and [sandbox_passed] is set, whatever the
    generated code is, even when there is none.  Of the messages that the
    log keeps, the run shows the one of the sidebar, the hint about test
    credentials and the four reports. *)
Theorem run_all_tests_always_passes :
  forall env w s,
    image_loads env = true ->
    step s = 4%Z ->
    pressed w BtnRunAllTests = true ->
    sandbox_passed (after env w s) = true /\
    shown_of (main env w s) =
    (sidebar_shown w ++ [StInfo msg_test_credentials] ++ sandbox_shown)%list.
Proof.
  intros env w s Hi H4 Ht. split.
  - rewrite after_page. cbv zeta. rewrite Hi, H4. cbn [Z.eqb Pos.eqb].
    rewrite state_sandbox, Ht. cbv zeta. fields. cbn [andb].
    destruct (pressed w BtnBackToCode), (pressed w BtnDeployToProduction);
      reflexivity.
  - destruct s as [st gc url am sp ins key]. simpl in H4. subst st.
    unfold main, sidebar, sandbox_page, sidebar_shown, sandbox_shown.
    rewrite Hi, Ht.
    destruct (truthy (key_field w)), (pressed w BtnBackToCode),
             (pressed w BtnDeployToProduction); reflexivity.
Qed.

Lemma run_all_tests_always_passes_witness :
  sandbox_passed (after env_offline (click BtnRunAllTests)
                    (set_step 4 initial)) = true.
Proof.
  apply (run_all_tests_always_passes env_offline (click BtnRunAllTests)
           (set_step 4 initial)); reflexivity.
Defined.

(** X12. Step 5 is entered from step 4 only, by a run in which "Deploy to
    Production" reports a press and "Back to Code" does not, and in which
    [sandbox_passed] was set before or is set by a test run of the same
    run; the session that arrives has the flag set. *)
Theorem deploy_entered_from_sandbox :
  forall env w s,
    step s <> 5%Z ->
    step (after env w s) = 5%Z ->
    step s = 4%Z /\
    pressed w BtnDeployToProduction = true /\
    pressed w BtnBackToCode = false /\
    (sandbox_passed s = true \/ pressed w BtnRunAllTests = true) /\
    sandbox_passed (after env w s) = true.
Proof.
  intros env w s N. pages env w s.
  - configured w s0. destruct (pressed w BtnGenerate); fields; lia.
  - lia.
  - destruct (pressed w BtnReview); fields; lia.
  - destruct (generated_code s0);
      [destruct (pressed w BtnBack), (pressed w BtnTestSandbox)|];
      fields; lia.
  - destruct (pressed w BtnRunAllTests), (pressed w BtnBackToCode),
             (sandbox_passed s0) eqn:Ep, (pressed w BtnDeployToProduction);
      fields; rewrite ?Ep; cbn [andb]; fields; rewrite ?Ep;
      try lia; intros _; repeat apply conj; auto; congruence.
  - contradiction.
  - lia.
  - lia.
Qed.

Lemma deploy_entered_from_sandbox_witness :
  step tested = 4%Z /\ sandbox_passed deployed = true.
Proof.
  assert (N : step tested <> 5%Z) by (vm_compute; discriminate).
  assert (H : step (after env_offline (click BtnDeployToProduction) tested)
              = 5%Z) by (vm_compute; reflexivity).
  pose proof (deploy_entered_from_sandbox env_offline
                (click BtnDeployToProduction) tested N H) as (H4 & _ & _ & _ & Hp).
  split; [exact H4 | exact Hp].
Defined.

(** ** Analysers *)

Lemma not_contains_short sub s :
  (String.length s < String.length sub)%nat -> contains sub s = false.
Proof.
  intros H. destruct (contains sub s) eqn:E; [|reflexivity].
  apply contains_length in E. lia.
Qed.

Lemma count_zero_short sub s :
  sub <> EmptyString ->
  (String.length s < String.length sub)%nat -> count sub s = 0%nat.
Proof.
  intros N H. unfold count. destruct sub as [|c sub]; [congruence|].
  pose proof (count_from_zero_iff (String c sub) s N) as Z.
  rewrite (not_contains_short _ _ H) in Z.
  destruct (count_from (String c sub) 0 s); [reflexivity|].
  exfalso. assert (F : true = false -> False) by discriminate.
  apply F. symmetry. apply Z. lia.
Qed.

(** X13. The extractor emits at most six lines and never the same line
    twice; a text of fewer than five characters gets no line at all. *)
Theorem insights_bounded :
  forall code api_url,
    (List.length (extract_insights code api_url) <= 6)%nat /\
    NoDup (extract_insights code api_url) /\
    ((String.length code < 5)%nat -> extract_insights code api_url = []).
Proof.
  intros code api_url. rewrite extract_insights_eq. repeat apply conj.
  - unfold optional.
    destruct (has_oauth code), (has_cursor code), (has_offset code),
             (has_rate_limit code), (has_retry code),
             (0 <? endpoint_count code)%nat; simpl; lia.
  - unfold optional.
    generalize (endpoint_count code). intros n.
    destruct (has_oauth code), (has_cursor code), (has_offset code),
             (has_rate_limit code), (has_retry code), (0 <? n)%nat;
      cbn [app];
      repeat (apply NoDup_cons;
              [cbn [In]; intros H;
               repeat (destruct H as [H|H]); try contradiction;
               lines_differ|]);
      apply NoDup_nil.
  - intros H.
    assert (L : (String.length (lower code) < 5)%nat)
      by (rewrite lower_length; exact H).
    unfold has_oauth, has_cursor, has_offset, has_rate_limit, has_retry,
      endpoint_count.
    rewrite !not_contains_short by (simpl; lia).
    rewrite !count_zero_short by (discriminate || (simpl; lia)).
    reflexivity.
Qed.

Lemma insights_bounded_witness : extract_insights "oaut" default_url = [].
Proof.
  apply (insights_bounded "oaut" default_url). simpl. lia.
Defined.

Lemma score_of_six_ordered k1 k2 :
  (k1 <= 6)%nat -> (k2 <= 6)%nat ->
  ((k1 <= k2)%nat ->
   PrimFloat.leb (score_of k1 6) (score_of k2 6) = true) /\
  ((k1 < k2)%nat ->
   PrimFloat.ltb (score_of k1 6) (score_of k2 6) = true).
Proof.
  intros H1 H2.
  do 7 (destruct k1 as [|k1];
        [do 7 (destruct k2 as [|k2];
               [split; intros H; (vm_compute; reflexivity) || lia|]); lia|]).
  lia.
Qed.

Lemma score_is_score_of code :
  snd (analyze_code_quality code) = score_of (count_true (checks code)) 6.
Proof.
  unfold analyze_code_quality. cbn [snd].
  rewrite passed_count_checks. reflexivity.
Qed.

(** X14. The score orders texts by the number of checks they pass: at
    least as many checks give at least the score, and more checks give a
    strictly higher score. *)
Theorem score_grows_with_checks :
  forall code1 code2,
    ((count_true (checks code1) <= count_true (checks code2))%nat ->
     PrimFloat.leb (snd (analyze_code_quality code1))
                   (snd (analyze_code_quality code2)) = true) /\
    ((count_true (checks code1) < count_true (checks code2))%nat ->
     PrimFloat.ltb (snd (analyze_code_quality code1))
                   (snd (analyze_code_quality code2)) = true).
Proof.
  intros code1 code2. rewrite !score_is_score_of.
  apply score_of_six_ordered; apply count_true_checks.
Qed.

Lemma score_grows_with_checks_witness :
  PrimFloat.ltb (snd (analyze_code_quality "x"))
                (snd (analyze_code_quality "try: pass except: pass")) = true.
Proof.
  apply (score_grows_with_checks "x" "try: pass except: pass").
  vm_compute. lia.
Defined.

Lemma full_display_iff k :
  (k <= 6)%nat -> format_1f (score_of k 6) = "10.0" <-> k = 6%nat.
Proof.
  intros H.
  do 7 (destruct k as [|k];
        [split; intros E; (vm_compute in E; discriminate E)
                          || (vm_compute; reflexivity) || lia|]).
  lia.
Qed.

(** X15. The score is displayed as 10.0 exactly when all six checks hold.
    In particular a text that contains "hardcode" in any case, or that
    never mentions [os.environ], is not shown 10.0. *)
Theorem full_score_iff_all_checks :
  forall code,
    (format_1f (snd (analyze_code_quality code)) = "10.0"
     <-> checks code = [true; true; true; true; true; true]) /\
    (contains "hardcode" (lower code) = true \/
     contains "os.environ" code = false ->
     format_1f (snd (analyze_code_quality code)) <> "10.0").
Proof.
  intros code. rewrite score_is_score_of.
  rewrite (full_display_iff _ (count_true_checks code)).
  assert (A : count_true (checks code) = 6%nat
              <-> checks code = [true; true; true; true; true; true]).
  { unfold checks, count_true.
    destruct (check_security code), (check_error_handling code),
             (check_pagination code), (check_rate_limiting code),
             (check_logging code), (check_best_practices code);
      simpl; split; intros H; (reflexivity || discriminate H). }
  split; [exact A|].
  intros H E. apply A in E. unfold checks in E.
  assert (S : check_security code = true) by congruence.
  unfold check_security in S. apply andb_prop in S. destruct S as [S1 S2].
  destruct H as [H|H]; [rewrite H in S2; discriminate | congruence].
Qed.

Lemma full_score_iff_all_checks_witness :
  format_1f (snd (analyze_code_quality "k = os.environ['K'] # no hardcoded"))
  <> "10.0".
Proof.
  apply (full_score_iff_all_checks "k = os.environ['K'] # no hardcoded").
  left. reflexivity.
Defined.

(** X16. Insights and quality report agree on cursors: whenever the
    extractor emits the cursor line, the pagination check reports Passed. *)
Theorem cursor_line_implies_pagination :
  forall code api_url,
    In insight_cursor (extract_insights code api_url) ->
    In ("pagination", "✓ Passed") (fst (analyze_code_quality code)).
Proof.
  intros code api_url Hin.
  assert (C : In insight_cursor (extract_insights code api_url)
              <-> has_cursor code = true) by line_cases.
  apply C in Hin. unfold has_cursor in Hin.
  unfold analyze_code_quality. cbn [fst]. unfold quality_metrics.
  unfold check_pagination at 1. rewrite Hin, orb_true_r.
  right. right. left. reflexivity.
Qed.

Lemma cursor_line_implies_pagination_witness :
  In ("pagination", "✓ Passed")
     (fst (analyze_code_quality "next_cursor = None")).
Proof.
  apply (cursor_line_implies_pagination "next_cursor = None" default_url).
  left. reflexivity.
Defined.
(** ** The tabs of the review page *)

Lemma str_app_empty s : s ++ EmptyString = s.
Proof. induction s as [|c s IH]; simpl; congruence. Qed.

Lemma unchars_app l1 l2 :
  unchars (l1 ++ l2)%list = unchars l1 ++ unchars l2.
Proof.
  induction l1 as [|ch l1 IH]; [reflexivity|].
  cbn [unchars app]. rewrite IH. symmetry. apply str_app_assoc.
Qed.

(** Splitting a text into characters loses nothing. *)
Lemma unchars_chars s : unchars (chars s) = s.
Proof.
  induction s as [|c s IH]; [reflexivity|].
  cbn [chars]. destruct (chars s) as [|[|d ch] rest].
  - simpl in *. congruence.
  - simpl in *. congruence.
  - destruct (continuation d); simpl in *; congruence.
Qed.

Lemma chars_is_char s : Forall is_char (chars s).
Proof.
  induction s as [|c s IH]; [constructor|].
  cbn [chars]. destruct (chars s) as [|[|d ch] rest].
  - repeat constructor.
  - constructor; [reflexivity | exact IH].
  - inversion IH as [|x l Hd Hrest]; subst.
    destruct (continuation d) eqn:Ed.
    + constructor; [|exact Hrest].
      simpl in *. rewrite Ed. exact Hd.
    + constructor; [reflexivity | exact IH].
Qed.

Lemma chars_skipn n s : Forall is_char (skipn n (chars s)).
Proof.
  pose proof (chars_is_char s) as F.
  rewrite <- (firstn_skipn n (chars s)) in F.
  apply Forall_app in F. apply F.
Qed.

Lemma is_char_length ch : is_char ch -> (1 <= String.length ch)%nat.
Proof. destruct ch; simpl; [tauto | lia]. Qed.

Lemma unchars_firstn_length n l :
  Forall is_char l -> (n <= List.length l)%nat ->
  (n <= String.length (unchars (firstn n l)))%nat.
Proof.
  intros F. revert n. induction F as [|ch l Hc F IH]; intros n L.
  - simpl in L. assert (n = 0%nat) by lia. subst. simpl. lia.
  - destruct n as [|n]; [simpl; lia|].
    cbn [firstn unchars]. rewrite str_app_length.
    pose proof (is_char_length ch Hc). simpl in L.
    specialize (IH n ltac:(lia)). lia.
Qed.

Lemma prefix_of_app sub x y :
  String.prefix sub (x ++ y) = true ->
  (String.length sub <= String.length x)%nat ->
  String.prefix sub x = true.
Proof.
  revert x. induction sub as [|c sub IH]; intros x H L.
  - destruct x; reflexivity.
  - destruct x as [|d x]; [simpl in L; lia|].
    simpl in *. destruct (ascii_dec c d); [|discriminate].
    apply IH; [exact H | lia].
Qed.

(** A prefix of a text is a prefix of its first [n] characters when it has
    no more than [n] bytes. *)
Lemma prefix_firstn sub n l :
  Forall is_char l ->
  String.prefix sub (unchars l) = true ->
  (String.length sub <= n)%nat ->
  String.prefix sub (unchars (firstn n l)) = true.
Proof.
  intros F P L.
  destruct (Nat.le_gt_cases n (List.length l)) as [Le|Gt].
  - rewrite <- (firstn_skipn n l), unchars_app in P.
    apply (prefix_of_app _ _ _ P).
    pose proof (unchars_firstn_length n l F Le). lia.
  - rewrite firstn_all2 by lia. exact P.
Qed.

(** A text that starts with a byte which continues no character occurs at
    the boundaries of characters only. *)
Lemma prefix_continuation a sub d s :
  continuation a = false -> continuation d = true ->
  String.prefix (String a sub) (String d s) = false.
Proof.
  intros Ha Hd. simpl. destruct (ascii_dec a d); [congruence | reflexivity].
Qed.

Lemma contains_continuation a sub cont rest :
  continuation a = false -> all_continuation cont = true ->
  contains (String a sub) (cont ++ rest) = contains (String a sub) rest.
Proof.
  intros Ha. induction cont as [|d cont IH]; intros Hc; [reflexivity|].
  cbn [all_continuation] in Hc. apply andb_prop in Hc. destruct Hc as [Hd Hc].
  cbn [append contains].
  rewrite (prefix_continuation a sub d _ Ha Hd). apply IH, Hc.
Qed.

Lemma contains_char a sub ch rest :
  continuation a = false -> is_char ch ->
  contains (String a sub) (ch ++ rest) =
  String.prefix (String a sub) (ch ++ rest) || contains (String a sub) rest.
Proof.
  intros Ha Hc. destruct ch as [|c cont]; [contradiction|].
  cbn [is_char] in Hc. cbn [append contains].
  rewrite (contains_continuation a sub cont rest Ha Hc).
  destruct (String.prefix (String a sub) (String c (cont ++ rest)));
    reflexivity.
Qed.

(** What [find_at] returns: [-1] when [sub] does not occur in the rest,
    and otherwise the index of a character at which it occurs. *)
Lemma find_at_spec a sub l :
  continuation a = false ->
  Forall is_char l ->
  forall pos,
    (find_at (String a sub) pos l = (-1)%Z /\
     contains (String a sub) (unchars l) = false) \/
    (exists d, (d <= List.length l)%nat /\
               find_at (String a sub) pos l = Z.of_nat (pos + d) /\
               String.prefix (String a sub) (unchars (skipn d l)) = true /\
               contains (String a sub) (unchars l) = true).
Proof.
  intros Ha F. induction F as [|ch l Hc F IH]; intros pos.
  - left. split; reflexivity.
  - cbn [find_at]. cbn [unchars].
    rewrite (contains_char a sub ch (unchars l) Ha Hc).
    destruct (String.prefix (String a sub) (ch ++ unchars l)) eqn:E.
    + right. exists 0%nat. rewrite Nat.add_0_r. cbn [skipn unchars].
      repeat split; [lia | exact E].
    + destruct (IH (S pos)) as [[Fi C]|(d & Ld & Fi & P & C)].
      * left. split; [exact Fi | exact C].
      * right. exists (S d). rewrite Fi. cbn [skipn orb List.length].
        repeat split; [lia | f_equal; lia | exact P | exact C].
Qed.

Lemma norm_index_nonneg len i :
  (0 <= i)%Z -> norm_index len i = Z.min i len.
Proof.
  intros H. unfold norm_index.
  destruct (i <? 0)%Z eqn:E; [apply Z.ltb_lt in E; lia | reflexivity].
Qed.

Lemma norm_index_neg len i :
  (i < 0)%Z -> norm_index len i = Z.max 0 (i + len).
Proof.
  intros H. unfold norm_index.
  destruct (i <? 0)%Z eqn:E; [reflexivity | apply Z.ltb_ge in E; lia].
Qed.

(** [s[:n]] *)
Lemma slice_from_zero n s :
  slice 0 (Z.of_nat n) s = take_chars n s.
Proof.
  unfold slice, take_chars, char_length. cbv zeta.
  rewrite !norm_index_nonneg by lia.
  replace (Z.min 0 (Z.of_nat (List.length (chars s)))) with 0%Z by lia.
  rewrite Z.sub_0_r. cbn [Z.to_nat skipn].
  destruct (Nat.le_ge_cases n (List.length (chars s))) as [L|L].
  - rewrite Z.min_l by lia. rewrite Nat2Z.id. reflexivity.
  - rewrite Z.min_r by lia. rewrite Nat2Z.id.
    rewrite !firstn_all2 by lia. reflexivity.
Qed.

(** [s[-1:1999]] is at most the last character of [s]. *)
Lemma slice_from_last s :
  exists pre l,
    slice (-1) (-1 + 2000) s = unchars l /\
    (List.length l <= 1)%nat /\
    (chars s = pre ++ l \/ (chars s = pre /\ l = []))%list.
Proof.
  unfold slice, char_length. cbv zeta.
  set (len := List.length (chars s)).
  rewrite (norm_index_neg _ (-1)) by lia.
  rewrite (norm_index_nonneg _ (-1 + 2000)) by lia.
  destruct (Z.leb_spec (Z.of_nat len) 1999) as [Le|Gt].
  - exists (firstn (Z.to_nat (Z.max 0 (-1 + Z.of_nat len))) (chars s)).
    exists (skipn (Z.to_nat (Z.max 0 (-1 + Z.of_nat len))) (chars s)).
    split; [|split].
    + rewrite firstn_all2; [reflexivity|].
      rewrite length_skipn. fold len. lia.
    + rewrite length_skipn. fold len. lia.
    + left. symmetry. apply firstn_skipn.
  - exists (chars s), []. split; [|split].
    + replace (Z.to_nat (Z.min (-1 + 2000) (Z.of_nat len)
                         - Z.max 0 (-1 + Z.of_nat len))) with 0%nat by lia.
      reflexivity.
    + simpl. lia.
    + right. auto.
Qed.

(** X17. The tab "Auth Setup" shows the first 2000 characters of the code.
    The tab "API Client" shows a text only when the code contains [class]:
    a run of at most 2000 consecutive characters of the code.  When
    [class] occurs at or after the character of index 500, the text starts
    at such an occurrence; when [class] occurs before that index only,
    [find] gives [-1] and the tab shows at most one character, taken from
    the end of the code. *)
Theorem review_tabs :
  forall code,
    auth_section code = take_chars 2000 code /\
    (contains "class" code = false -> client_section code = None) /\
    (contains "class" code = true ->
     exists pre l post,
       client_section code = Some (unchars l) /\
       chars code = (pre ++ l ++ post)%list /\
       (List.length l <= 2000)%nat /\
       (contains "class" (drop_chars 500 code) = true ->
        (500 <= List.length pre)%nat /\
        String.prefix "class" (unchars l) = true) /\
       (contains "class" (drop_chars 500 code) = false ->
        (List.length l <= 1)%nat /\ post = [])).
Proof.
  intros code. split; [apply (slice_from_zero 2000)|].
  unfold client_section. split; [intros H; rewrite H; reflexivity|].
  intros H. rewrite H. cbv zeta.
  assert (Last : find "class" 500 code = (-1)%Z ->
                 contains "class" (drop_chars 500 code) = false ->
                 exists pre l post,
                   Some (slice (find "class" 500 code)
                           (find "class" 500 code + 2000) code)
                   = Some (unchars l) /\
                   chars code = (pre ++ l ++ post)%list /\
                   (List.length l <= 2000)%nat /\
                   (contains "class" (drop_chars 500 code) = true ->
                    (500 <= List.length pre)%nat /\
                    String.prefix "class" (unchars l) = true) /\
                   (contains "class" (drop_chars 500 code) = false ->
                    (List.length l <= 1)%nat /\ post = [])).
  { intros F C. rewrite F.
    destruct (slice_from_last code) as (pre & l & E & L & [S|[S ->]]).
    - exists pre, l, []. rewrite E, app_nil_r.
      repeat split; (assumption || lia || congruence).
    - exists pre, [], []. rewrite E, app_nil_r.
      repeat split; (assumption || (simpl; lia) || congruence). }
  unfold find in *. unfold char_length in *.
  set (len := List.length (chars code)) in *.
  assert (Ha : continuation "c"%char = false) by reflexivity.
  destruct (500 <=? len)%nat eqn:E500.
  - apply Nat.leb_le in E500.
    pose proof (chars_skipn 500 code) as Fc.
    destruct (find_at_spec "c"%char "lass" (skipn 500 (chars code)) Ha Fc 500)
      as [[F C]|(d & Ld & F & P & C)].
    + apply Last; assumption.
    + clear Last. rewrite F.
      rewrite length_skipn in Ld. fold len in Ld.
      rewrite skipn_skipn in P.
      replace (d + 500)%nat with (500 + d)%nat in P by lia.
      exists (firstn (500 + d) (chars code)).
      exists (firstn 2000 (skipn (500 + d) (chars code))).
      exists (skipn 2000 (skipn (500 + d) (chars code))).
      split; [|split; [|split; [|split]]].
      * unfold slice, char_length. cbv zeta. fold len.
        rewrite !norm_index_nonneg by lia.
        replace (Z.to_nat (Z.min (Z.of_nat (500 + d)) (Z.of_nat len)))
          with (500 + d)%nat by lia.
        f_equal. f_equal.
        destruct (Nat.le_ge_cases (500 + d + 2000) len) as [L|L].
        -- f_equal. lia.
        -- rewrite !firstn_all2;
             [reflexivity | | ]; rewrite length_skipn; fold len; lia.
      * rewrite firstn_skipn, firstn_skipn. reflexivity.
      * rewrite length_firstn. lia.
      * intros _. split.
        -- rewrite length_firstn. fold len. lia.
        -- apply prefix_firstn;
             [apply chars_skipn | exact P | cbn [String.length]; lia].
      * unfold drop_chars. congruence.
  - apply Nat.leb_gt in E500. apply Last; [reflexivity|].
    unfold drop_chars. rewrite skipn_all2 by (fold len; lia). reflexivity.
Qed.

Lemma review_tabs_witness :
  exists pre l post,
    client_section "class A: pass" = Some (unchars l) /\
    chars "class A: pass" = (pre ++ l ++ post)%list /\
    (List.length l <= 1)%nat.
Proof.
  destruct (review_tabs "class A: pass") as (_ & _ & H).
  destruct (H eq_refl) as (pre & l & post & E & S & _ & _ & Hs).
  exists pre, l, post. split; [exact E|]. split; [exact S|].
  apply Hs. reflexivity.
Defined.

(** ** Prompt *)

Lemma contains_line x y rest :
  contains (x ++ y ++ nl) ((x ++ y) ++ nl ++ rest) = true.
Proof.
  rewrite <- (str_app_assoc (x ++ y) nl rest), (str_app_assoc x y nl).
  apply contains_app_l, contains_refl.
Qed.

(** X18. The prompt contains the documentation URL, the authentication
    method and the language exactly as they were passed in, whatever they
    are: nothing is escaped or checked. *)
Theorem prompt_embeds_inputs :
  forall api_doc_url auth_method language,
    let prompt := build_prompt api_doc_url auth_method language in
    contains ("API Documentation URL: " ++ api_doc_url ++ nl) prompt = true /\
    contains ("Authentication Method: " ++ auth_method ++ nl) prompt = true /\
    contains ("Target Language: " ++ language ++ nl) prompt = true /\
    contains ("   - Handle " ++ auth_method ++ nl) prompt = true.
Proof.
  intros api_doc_url auth_method language. cbv zeta.
  unfold build_prompt. cbn [join_lines].
  repeat apply conj;
    repeat first [ apply contains_line | apply contains_app_r ].
Qed.
(** ** The way to the deploy page *)

Lemma after_sidebar_click env b s : after_sidebar env (click b) s = s.
Proof.
  unfold after_sidebar. cbn [click key_field truthy].
  rewrite andb_false_r. reflexivity.
Qed.

Section Way.

Variable env : Env.
Hypothesis image : image_loads env = true.
Hypothesis readable : secrets env <> NoSecretsFile.

Lemma click_generate s :
  step s = 1%Z -> step (after env (click BtnGenerate) s) = 2%Z.
Proof.
  intros H. rewrite after_page. cbv zeta. rewrite image, H.
  cbn [Z.eqb Pos.eqb]. rewrite state_configure. reflexivity.
Qed.

Lemma click_review s :
  step s = 2%Z ->
  step (after env (click BtnReview) s) = 3%Z /\
  generated_code (after env (click BtnReview) s) <> None.
Proof.
  intros H. rewrite after_page. cbv zeta. rewrite image, H.
  cbn [Z.eqb Pos.eqb].
  destruct (page_generate env (click BtnReview)
              (after_sidebar env (click BtnReview) s))
    as [(Hsec & _)|(_ & _ & Hs)]; [contradiction|].
  rewrite Hs. cbv zeta. cbn [click pressed Button_eqb].
  split; [reflexivity | discriminate].
Qed.

Lemma click_test_sandbox s :
  step s = 3%Z -> generated_code s <> None ->
  step (after env (click BtnTestSandbox) s) = 4%Z.
Proof.
  intros H Hc.
  rewrite (after_test_in_sandbox env (click BtnTestSandbox) s image H Hc
             eq_refl eq_refl).
  reflexivity.
Qed.

Lemma click_run_all_tests s :
  step s = 4%Z ->
  step (after env (click BtnRunAllTests) s) = 4%Z /\
  sandbox_passed (after env (click BtnRunAllTests) s) = true.
Proof.
  intros H. rewrite after_page. cbv zeta. rewrite image, H.
  cbn [Z.eqb Pos.eqb].
  rewrite state_sandbox. cbv zeta. cbn [click pressed Button_eqb].
  rewrite after_sidebar_click. cbn [andb sandbox_passed set_sandbox_passed].
  split; [exact H | reflexivity].
Qed.

Lemma click_deploy_to_production s :
  step s = 4%Z -> sandbox_passed s = true ->
  step (after env (click BtnDeployToProduction) s) = 5%Z.
Proof.
  intros H Hp.
  rewrite (after_deploy_to_production env (click BtnDeployToProduction) s
             image H Hp eq_refl eq_refl).
  reflexivity.
Qed.

Lemma way_from_sandbox s :
  step s = 4%Z ->
  step (runs env [click BtnRunAllTests; click BtnDeployToProduction] s)
  = 5%Z.
Proof.
  intros H. cbn [runs fold_left].
  destruct (click_run_all_tests s H) as [H4 Hp].
  apply click_deploy_to_production; assumption.
Qed.

Lemma way_from_review s :
  step s = 3%Z -> generated_code s <> None ->
  step (runs env [click BtnTestSandbox; click BtnRunAllTests;
                  click BtnDeployToProduction] s) = 5%Z.
Proof.
  intros H Hc.
  apply (way_from_sandbox (after env (click BtnTestSandbox) s)).
  apply click_test_sandbox; assumption.
Qed.

Lemma way_from_generate s :
  step s = 2%Z ->
  step (runs env [click BtnReview; click BtnTestSandbox;
                  click BtnRunAllTests; click BtnDeployToProduction] s)
  = 5%Z.
Proof.
  intros H. destruct (click_review s H) as [H3 Hc].
  apply (way_from_review (after env (click BtnReview) s)); assumption.
Qed.

End Way.

(** X19. No dead end before the deploy page where the pages are drawn and
    [st.secrets] can be read: from every reachable session on steps 1 to
    4, at most five runs with one click each lead to step 5, whatever the
    text-generation service does on the way.  Without the image no run
    moves, and without a secrets file no run leaves step 2. *)
Theorem deploy_page_within_five_clicks :
  forall env s,
    reachable s ->
    (1 <= step s <= 4)%Z ->
    Forall one_button (way_to_deploy s) /\
    (List.length (way_to_deploy s) <= 5)%nat /\
    (image_loads env = true -> secrets env <> NoSecretsFile ->
     step (runs env (way_to_deploy s) s) = 5%Z) /\
    (image_loads env = false ->
     forall ws, runs env ws s = s) /\
    (image_loads env = true -> secrets env = NoSecretsFile ->
     step s = 2%Z -> forall ws, step (runs env ws s) = 2%Z).
Proof.
  intros env s Hr Hs.
  split; [|split; [|split; [|split]]].
  - unfold way_to_deploy.
    destruct (step s =? 1)%Z; [|destruct (step s =? 2)%Z;
      [|destruct (step s =? 3)%Z]];
      repeat constructor; apply click_one_button.
  - unfold way_to_deploy.
    destruct (step s =? 1)%Z; [|destruct (step s =? 2)%Z;
      [|destruct (step s =? 3)%Z]]; simpl; lia.
  - intros Hi Hsec. unfold way_to_deploy.
    destruct (step s =? 1)%Z eqn:E1;
      [|destruct (step s =? 2)%Z eqn:E2;
        [|destruct (step s =? 3)%Z eqn:E3]];
      rewrite ?Z.eqb_eq, ?Z.eqb_neq in *.
    + apply (way_from_generate env Hi Hsec (after env (click BtnGenerate) s)).
      apply click_generate; [exact Hi | exact E1].
    + apply way_from_generate; assumption.
    + apply way_from_review; [exact Hi | exact E3 |].
      apply (reachable_code s Hr). lia.
    + apply way_from_sandbox; [exact Hi | lia].
  - intros Hi ws. clear Hr Hs. revert s.
    induction ws as [|w ws IH]; intros s; [reflexivity|].
    cbn [runs fold_left]. change (fold_left _ ws ?x) with (runs env ws x).
    rewrite after_page. cbv zeta. rewrite Hi.
    rewrite after_sidebar_no_image by exact Hi. apply IH.
  - intros Hi Hsec H2 ws. clear Hr Hs. revert s H2.
    induction ws as [|w ws IH]; intros s H2; [exact H2|].
    cbn [runs fold_left]. change (fold_left _ ws ?x) with (runs env ws x).
    apply IH. rewrite after_page. cbv zeta. rewrite Hi, H2.
    cbn [Z.eqb Pos.eqb].
    destruct (page_generate env w (after_sidebar env w s))
      as [(_ & _ & Hst)|(Hn & _)]; [|contradiction].
    rewrite Hst, step_after_sidebar. exact H2.
Qed.

Lemma deploy_page_within_five_clicks_witness :
  step (runs (env_answering "pass") (way_to_deploy initial) initial) = 5%Z.
Proof.
  refine (proj1 (proj2 (proj2
            (deploy_page_within_five_clicks (env_answering "pass") initial
               reach_initial _))) eq_refl _).
  - simpl. lia.
  - discriminate.
Defined.

(** ** The progress list of the sidebar *)

(** X20. The sidebar ticks the steps up to the current one and no other:
    on step [n] of 1 to 5, the first [n] lines are ticked and the others
    are plain. *)
Theorem sidebar_ticks_up_to_step :
  forall s,
    (1 <= step s <= 5)%Z ->
    sidebar_progress s =
    (map (fun e => ticked (fst e)) (firstn (Z.to_nat (step s)) steps)
     ++ map fst (skipn (Z.to_nat (step s)) steps))%list.
Proof.
  intros s H. unfold sidebar_progress, steps. cbn [map progress_line].
  assert (C : step s = 1%Z \/ step s = 2%Z \/ step s = 3%Z \/
              step s = 4%Z \/ step s = 5%Z) by lia.
  destruct C as [E|[E|[E|[E|E]]]]; rewrite E; reflexivity.
Qed.

Lemma sidebar_ticks_up_to_step_witness :
  sidebar_progress at_review =
  [ ticked "1️⃣ Configure"; ticked "2️⃣ Generate"; ticked "3️⃣ Review Code";
    "4️⃣ Test Sandbox"; "5️⃣ Deploy" ].
Proof.
  assert (E : step at_review = 3%Z) by (vm_compute; reflexivity).
  rewrite (sidebar_ticks_up_to_step at_review ltac:(lia)).
  rewrite E. reflexivity.
Defined.
